(** * The SendGrid MCP server ([main.ts]): a shallow embedding

    The server exposes one tool, [send_email].  A call is validated with a
    zod schema, its HTML body is sanitized, the message is handed to the
    SendGrid client, and every outcome is mapped to a tool response.

    The file follows [main.ts] top down:
    - [JS]: the JavaScript values the handler inspects at run time (the
      tool arguments and whatever the SendGrid client throws);
    - [Zod]: what [z.object({..}).refine(..)] does on the server's schema
      (zod 3.23.8, the version pinned in [deno.json]);
    - [Server]: [sendEmail], [sanitizeHtml], [handleSendEmail] and the
      call-tool request handler, in a small monad that records the calls
      made to the outside world. *)

From Stdlib Require Import Ascii.
From stdpp Require Import base strings list gmap pretty.

Open Scope string_scope.
Open Scope list_scope.

(** ** Results of fallible computations *)

Inductive result (E A : Type) : Type :=
| Ok (a : A)
| Err (e : E).
Arguments Ok {E A} a.
Arguments Err {E A} e.

(** ** JavaScript values *)

Module JS.

(** The data that reaches the handler is JSON-like: the tool arguments
    come off the wire, and a SendGrid error carries a parsed response
    body.  Numbers are the integers (status codes, lengths); an object is
    the list of its own properties, looked up by the first match. *)
#[warnings="-register-all"]
Inductive value : Type :=
| VUndefined
| VNull
| VBool (b : bool)
| VNum (n : Z)
| VStr (s : string)
| VArr (elems : list value)
| VObj (fields : list (string * value)).

(** [ToBoolean] *)
Definition truthy (v : value) : bool :=
  match v with
  | VUndefined | VNull => false
  | VBool b => b
  | VNum n => negb (n =? 0)%Z
  | VStr s => negb (String.eqb s "")
  | VArr _ | VObj _ => true
  end.

(** [typeof v] *)
Definition typeof (v : value) : string :=
  match v with
  | VUndefined => "undefined"
  | VNull | VArr _ | VObj _ => "object"
  | VBool _ => "boolean"
  | VNum _ => "number"
  | VStr _ => "string"
  end.

Definition Array_isArray (v : value) : bool :=
  match v with VArr _ => true | _ => false end.

Definition nullish (v : value) : bool :=
  match v with VUndefined | VNull => true | _ => false end.

(** [a || b] on values *)
Definition or_else (a b : value) : value := if truthy a then a else b.

(** [n > 0] *)
Definition gt_zero (v : value) : bool :=
  match v with VNum n => (0 <? n)%Z | _ => false end.

(** Own-property lookup, first match. *)
Fixpoint lookup_field (k : string) (fields : list (string * value)) : option value :=
  match fields with
  | [] => None
  | (k', v) :: rest => if String.eqb k k' then Some v else lookup_field k rest
  end.

(** [obj[k]] on an object's own properties: [undefined] when missing. *)
Definition field (k : string) (fields : list (string * value)) : value :=
  match lookup_field k fields with Some v => v | None => VUndefined end.

Definition has_field (k : string) (fields : list (string * value)) : bool :=
  match lookup_field k fields with Some _ => true | None => false end.

(** [ToString], as a template literal applies it.  An array joins its
    elements with commas, [null] and [undefined] elements printing as
    nothing; a plain object prints as [[object Object]]. *)
Fixpoint ToString (v : value) : string :=
  match v with
  | VUndefined => "undefined"
  | VNull => "null"
  | VBool true => "true"
  | VBool false => "false"
  | VNum n => pretty n
  | VStr s => s
  | VArr elems =>
      let elem (x : value) : string :=
        match x with VUndefined | VNull => "" | _ => ToString x end in
      (fix join (l : list value) : string :=
         match l with
         | [] => ""
         | [x] => elem x
         | x :: rest => elem x +:+ "," +:+ join rest
         end) elems
  | VObj _ => "[object Object]"
  end.

(** [parts.join(sep)] on strings *)
Fixpoint join (sep : string) (parts : list string) : string :=
  match parts with
  | [] => ""
  | [p] => p
  | p :: rest => p +:+ sep +:+ join sep rest
  end.

End JS.
Import JS.

(** ** zod on the server's schema *)

Module Zod.

(** [ZodParsedType], what [getParsedType] answers on a JSON-like value. *)
Inductive ZodParsedType : Type :=
| t_string | t_number | t_boolean | t_null | t_array | t_object | t_undefined.

Definition getParsedType (v : value) : ZodParsedType :=
  match v with
  | VUndefined => t_undefined
  | VNull => t_null
  | VBool _ => t_boolean
  | VNum _ => t_number
  | VStr _ => t_string
  | VArr _ => t_array
  | VObj _ => t_object
  end.

Definition type_name (t : ZodParsedType) : string :=
  match t with
  | t_string => "string" | t_number => "number" | t_boolean => "boolean"
  | t_null => "null" | t_array => "array" | t_object => "object"
  | t_undefined => "undefined"
  end.

Inductive ZodIssueCode : Type :=
| invalid_type | invalid_string | too_small | custom.

Record ZodIssue : Type := mkIssue {
  code : ZodIssueCode;
  path : list string;
  message : string
}.

(** The status a [_parse] returns with: [INVALID] is zod's "aborted". *)
Inductive ParseReturn (A : Type) : Type :=
| VALID (a : A)
| DIRTY (a : A)
| INVALID.
Arguments VALID {A} a.
Arguments DIRTY {A} a.
Arguments INVALID {A}.

(** A [_parse] adds its issues to the shared context and returns its
    status: here, the pair of the two. *)
Definition Parse (A : Type) : Type := (ParseReturn A * list ZodIssue)%type.

(** The default error map on [invalid_type]. *)
Definition invalid_type_issue (p : list string) (expected : ZodParsedType) (v : value) : ZodIssue :=
  let received := getParsedType v in
  mkIssue invalid_type p
    (match received with
     | t_undefined => "Required"
     | _ => "Expected " +:+ type_name expected +:+ ", received " +:+ type_name received
     end).

(** *** The email pattern

    zod's [emailRegex], case-insensitive, anchored at both ends, reads:
    not before a dot; not before anything followed by two dots; any run of
    [A-Z0-9_'+-.] and then one of [A-Z0-9_+-]; an [@]; one or more labels,
    each one of [A-Z0-9], a run of [A-Z0-9-] and a dot; two or more of
    [A-Z].

    No class contains [@], so the local part is what precedes the first
    [@]; no class of the domain contains a dot, so the labels are the
    domain split at its dots.  No class contains a line terminator, so on
    a string the rest matches the second look-ahead sees every pair of
    dots. *)

Definition in_range (lo hi : nat) (c : ascii) : bool :=
  let n := nat_of_ascii c in (lo <=? n)%nat && (n <=? hi)%nat.

Definition is_letter (c : ascii) : bool := in_range 65 90 c || in_range 97 122 c.
Definition is_digit (c : ascii) : bool := in_range 48 57 c.
Definition is_alnum (c : ascii) : bool := is_letter c || is_digit c.
Definition is_char (x c : ascii) : bool := Ascii.eqb x c.

(** [A-Z0-9_'+-.] *)
Definition local_char (c : ascii) : bool :=
  is_alnum c || is_char "_" c || is_char "'" c || is_char "+" c || is_char "-" c || is_char "." c.
(** [A-Z0-9_+-] *)
Definition local_last (c : ascii) : bool :=
  is_alnum c || is_char "_" c || is_char "+" c || is_char "-" c.
(** [A-Z0-9-] *)
Definition label_char (c : ascii) : bool := is_alnum c || is_char "-" c.

(** The text before the first [sep], and the text after it if there is one. *)
Fixpoint cut (sep : ascii) (l : list ascii) : list ascii * option (list ascii) :=
  match l with
  | [] => ([], None)
  | c :: rest =>
      if Ascii.eqb c sep then ([], Some rest)
      else let '(a, b) := cut sep rest in (c :: a, b)
  end.

(** [s.split(sep)] *)
Fixpoint split_on (sep : ascii) (l : list ascii) : list (list ascii) :=
  match l with
  | [] => [[]]
  | c :: rest =>
      if Ascii.eqb c sep then [] :: split_on sep rest
      else match split_on sep rest with
           | [] => [[c]]
           | p :: ps => (c :: p) :: ps
           end
  end.

Fixpoint has_dotdot (l : list ascii) : bool :=
  match l with
  | c :: ((d :: _) as rest) => (is_char "." c && is_char "." d) || has_dotdot rest
  | _ => false
  end.

Definition starts_with_dot (l : list ascii) : bool :=
  match l with c :: _ => is_char "." c | [] => false end.

(** A run of [local_char] that ends in a [local_last]. *)
Definition local_ok (l : list ascii) : bool :=
  match rev l with
  | [] => false
  | c :: before => local_last c && forallb local_char before
  end.

(** One [A-Z0-9] and a run of [label_char]. *)
Definition label_ok (l : list ascii) : bool :=
  match l with
  | [] => false
  | c :: rest => is_alnum c && forallb label_char rest
  end.

(** One or more labels, each closed by a dot, and two or more letters. *)
Definition domain_ok (l : list ascii) : bool :=
  match rev (split_on "." l) with
  | tld :: ((_ :: _) as labels) =>
      (2 <=? length tld)%nat && forallb is_letter tld && forallb label_ok labels
  | _ => false
  end.

Definition emailRegex_test (s : string) : bool :=
  let l := String.list_ascii_of_string s in
  negb (starts_with_dot l) && negb (has_dotdot l) &&
  match cut "@" l with
  | (loc, Some dom) => local_ok loc && domain_ok dom
  | (_, None) => false
  end.

(** *** [ZodString] *)

Inductive ZodStringCheck : Type :=
| check_email (msg : string)
| check_min (n : nat) (msg : string).

Definition run_check (p : list string) (data : string) (c : ZodStringCheck) : list ZodIssue :=
  match c with
  | check_min n msg =>
      if (String.length data <? n)%nat then [mkIssue too_small p msg] else []
  | check_email msg =>
      if emailRegex_test data then [] else [mkIssue invalid_string p msg]
  end.

(** [ZodString._parse]: anything but a string aborts; a failed check adds
    its issue and leaves the status dirty. *)
Definition ZodString_parse (checks : list ZodStringCheck) (p : list string) (input : value) : Parse string :=
  match input with
  | VStr data =>
      let issues := concat (map (run_check p data) checks) in
      (match issues with [] => VALID data | _ => DIRTY data end, issues)
  | _ => (INVALID, [invalid_type_issue p t_string input])
  end.

(** [ZodOptional._parse] *)
Definition ZodOptional_parse {A : Type} (inner : list string -> value -> Parse A)
    (p : list string) (input : value) : Parse (option A) :=
  match input with
  | VUndefined => (VALID None, [])
  | _ =>
      let '(r, issues) := inner p input in
      (match r with
       | VALID a => VALID (Some a)
       | DIRTY a => DIRTY (Some a)
       | INVALID => INVALID
       end, issues)
  end.

(** [ParseStatus.mergeObjectSync] reads the pairs through these. *)
Definition parsed {A : Type} (r : ParseReturn A) : option A :=
  match r with VALID a | DIRTY a => Some a | INVALID => None end.

Definition is_dirty {A : Type} (r : ParseReturn A) : bool :=
  match r with DIRTY _ => true | _ => false end.

(** [ZodEffects._parse] for a refinement: an aborted inner parse returns
    at once; otherwise the check runs on the inner value, also when the
    inner parse is dirty, and a failed check adds [issue]. *)
Definition ZodEffects_refinement {A : Type} (schema : value -> Parse A)
    (check : A -> bool) (issue : ZodIssue) (input : value) : Parse A :=
  let '(inner, issues) := schema input in
  match inner with
  | INVALID => (INVALID, issues)
  | VALID a => if check a then (VALID a, issues) else (DIRTY a, issues ++ [issue])
  | DIRTY a => (DIRTY a, if check a then issues else issues ++ [issue])
  end.

(** [schema.parse(input)]: the data when the status is valid, else a
    [ZodError] with the issues gathered. *)
Definition ZodType_parse {A : Type} (schema : value -> Parse A) (input : value)
    : result (list ZodIssue) A :=
  match schema input with
  | (VALID a, _) => Ok a
  | (_, issues) => Err issues
  end.

End Zod.
Import Zod.

(** ** [EmailSchema] *)

Record EmailRequest : Type := mkEmailRequest {
  to : string;
  subject : string;
  text : option string;
  html : option string
}.

(** Truthiness of an optional string field: [undefined] and the empty
    string are falsy. *)
Definition present (o : option string) : bool :=
  match o with Some s => negb (String.eqb s "") | None => false end.

Definition mergeObjectSync (r_to r_subject : ParseReturn string)
    (r_text r_html : ParseReturn (option string)) : ParseReturn EmailRequest :=
  match parsed r_to, parsed r_subject, parsed r_text, parsed r_html with
  | Some t, Some s, Some x, Some h =>
      let finalObject := mkEmailRequest t s x h in
      if is_dirty r_to || is_dirty r_subject || is_dirty r_text || is_dirty r_html
      then DIRTY finalObject else VALID finalObject
  | _, _, _, _ => INVALID
  end.

(** [z.object({to, subject, text, html})]: [ZodObject._parse] with the
    default [unknownKeys: "strip"].  Every key of the shape is parsed, in
    the order of the shape, from [input[key]]; keys outside the shape are
    never looked at. *)
Definition EmailObject_parse (input : value) : Parse EmailRequest :=
  match input with
  | VObj data =>
      let '(r_to, i_to) :=
        ZodString_parse [check_email "Invalid recipient email address"] ["to"] (field "to" data) in
      let '(r_subject, i_subject) :=
        ZodString_parse [check_min 1 "Subject cannot be empty"] ["subject"] (field "subject" data) in
      let '(r_text, i_text) :=
        ZodOptional_parse (ZodString_parse []) ["text"] (field "text" data) in
      let '(r_html, i_html) :=
        ZodOptional_parse (ZodString_parse []) ["html"] (field "html" data) in
      (mergeObjectSync r_to r_subject r_text r_html, i_to ++ i_subject ++ i_text ++ i_html)
  | _ => (INVALID, [invalid_type_issue [] t_object input])
  end.

(** [(data) => data.text || data.html] *)
Definition has_content (data : EmailRequest) : bool :=
  present (text data) || present (html data).

Definition content_issue : ZodIssue :=
  mkIssue custom ["content"] "Either text or html content must be provided".

Definition EmailSchema (input : value) : Parse EmailRequest :=
  ZodEffects_refinement EmailObject_parse has_content content_issue input.

Definition EmailSchema_parse (input : value) : result (list ZodIssue) EmailRequest :=
  ZodType_parse EmailSchema input.

(** ** Exceptions and the outside world *)

Module Runtime.

(** What a [throw] can carry.  [ZodError] is what [EmailSchema.parse]
    throws; [ErrorObject] is any other [instanceof Error] value, with its
    message and its own extra properties (the test double's error has
    [response]); [Thrown] is a thrown value that is not an [Error]. *)
Inductive thrown : Type :=
| ZodError (errors : list ZodIssue)
| ErrorObject (message : string) (own : list (string * value))
| Thrown (v : value).

Definition TypeError (msg : string) : thrown := ErrorObject msg [].

Definition rbind {A B : Type} (m : result thrown A) (k : A -> result thrown B)
    : result thrown B :=
  match m with Ok a => k a | Err e => Err e end.

Notation "'let!' x := m 'in' k" := (rbind m (fun x => k))
  (at level 10, x name, m at level 100, k at level 200).

(** [a && b] where either side may throw: [b] counts only when [a] holds. *)
Definition and_then (a b : result thrown bool) : result thrown bool :=
  match a with Ok true => b | _ => a end.

(** [v[k]] for a string key.  Reading a property of [undefined] or [null]
    throws.  The handler reads ['response'], ['status'], ['body'],
    ['errors'], ['message'] and ['x-message-id'], none of which a primitive
    or an array has, so those read as [undefined]; ['length'] is there for
    arrays and strings. *)
Definition get (k : string) (v : value) : result thrown value :=
  match v with
  | VUndefined | VNull =>
      Err (TypeError ("Cannot read properties of " +:+ ToString v +:+
                      " (reading '" +:+ k +:+ "')"))
  | VObj fields => Ok (field k fields)
  | VArr elems =>
      Ok (if String.eqb k "length" then VNum (Z.of_nat (length elems)) else VUndefined)
  | VStr s =>
      Ok (if String.eqb k "length" then VNum (Z.of_nat (String.length s)) else VUndefined)
  | VBool _ | VNum _ => Ok VUndefined
  end.

(** [v?.k] *)
Definition get_opt (k : string) (v : value) : result thrown value :=
  if nullish v then Ok VUndefined else get k v.

(** [v[i]] for an index *)
Definition get_index (i : nat) (v : value) : result thrown value :=
  match v with
  | VArr elems => Ok (nth i elems VUndefined)
  | _ => get (pretty i) v
  end.

(** [k in v]: a [TypeError] unless [v] is an object. *)
Definition in_op (k : string) (v : value) : result thrown bool :=
  match v with
  | VObj fields => Ok (has_field k fields)
  | VArr elems => Ok (String.eqb k "length")
  | _ =>
      Err (TypeError ("Cannot use 'in' operator to search for '" +:+ k +:+
                      "' in " +:+ ToString v))
  end.

(** The same questions asked of a caught value.  An [Error] has its
    [message] besides its own properties; the handler asks a caught value
    for ['response'] only, which a [ZodError] does not have. *)
Definition truthy_object (e : thrown) : bool :=
  match e with
  | ZodError _ | ErrorObject _ _ => true
  | Thrown v => truthy v && String.eqb (typeof v) "object"
  end.

Definition thrown_in (k : string) (e : thrown) : result thrown bool :=
  match e with
  | ZodError _ => Ok false
  | ErrorObject _ own => Ok (String.eqb k "message" || has_field k own)
  | Thrown v => in_op k v
  end.

Definition thrown_get (k : string) (e : thrown) : result thrown value :=
  match e with
  | ZodError _ => Ok VUndefined
  | ErrorObject message own =>
      Ok (if String.eqb k "message" then VStr message else field k own)
  | Thrown v => get k v
  end.

(** The message SendGrid is given. *)
Record MailData : Type := mkMailData {
  msg_to : string;
  msg_from : string;
  msg_subject : string;
  msg_text : option string;
  msg_html : option string
}.

(** The first component of what [sgMail.send] resolves to. *)
Record ClientResponse : Type := mkClientResponse {
  statusCode : Z;
  headers : value
}.

(** What a call does to the outside world, in order. *)
Inductive event : Type :=
| Sanitize (dirty : string)
| Send (msg : MailData)
| ConsoleError (label : string).

(** A computation returns or throws, and leaves the events it caused. *)
Definition M (A : Type) : Type := (result thrown A * list event)%type.

Definition ret {A : Type} (a : A) : M A := (Ok a, []).
Definition emit (ev : event) : M unit := (Ok tt, [ev]).
Definition lift {A : Type} (r : result thrown A) : M A := (r, []).

Definition bind {A B : Type} (m : M A) (k : A -> M B) : M B :=
  match m with
  | (Ok a, t) => let '(r, t') := k a in (r, t ++ t')
  | (Err e, t) => (Err e, t)
  end.

(** [try { m } catch (e) { handler e }] *)
Definition try_catch {A : Type} (m : M A) (handler : thrown -> M A) : M A :=
  match m with
  | (Ok a, t) => (Ok a, t)
  | (Err e, t) => let '(r, t') := handler e in (r, t ++ t')
  end.

Notation "'do' x <- m ; k" := (bind m (fun x => k))
  (at level 10, x name, m at level 100, k at level 200).

(** The messages handed to [sgMail.send] during a run. *)
Fixpoint sent (t : list event) : list MailData :=
  match t with
  | [] => []
  | Send msg :: rest => msg :: sent rest
  | _ :: rest => sent rest
  end.

End Runtime.
Import Runtime.

(** ** The server *)

Module Response.

Record Content : Type := mkContent {
  type : string;
  text : string
}.

(** A success carries no [isError] key. *)
Record t : Type := mk {
  content : list Content;
  isError : option bool
}.

Definition success (msg : string) : t := mk [mkContent "text" msg] None.
Definition failure (msg : string) : t := mk [mkContent "text" msg] (Some true).

End Response.

Record SendGridMCPServer : Type := mkServer {
  apiKey : string;
  fromEmail : string
}.

(** [Deno.env.get(k) || ""] *)
Definition env_get (env : gmap string string) (k : string) : string :=
  default "" (env !! k).

(** The constructor reads the two settings once; [None] is [Deno.exit(1)]. *)
Definition new_SendGridMCPServer (env : gmap string string) (testMode : bool)
    : option SendGridMCPServer :=
  let apiKey := env_get env "SENDGRID_API_KEY" in
  if String.eqb apiKey "" && negb testMode then None else
  let fromEmail := env_get env "SENDGRID_FROM_EMAIL" in
  if String.eqb fromEmail "" && negb testMode then None else
  Some (mkServer apiKey fromEmail).

(** [request.params] of a call-tool request. *)
Record CallToolRequest : Type := mkRequest {
  name : string;
  arguments : value
}.

Record DeliveryReceipt : Type := mkReceipt {
  receipt_statusCode : Z;
  messageId : value
}.

(** The two libraries the server calls out to.  Either call may throw. *)
Record Libraries : Type := mkLibraries {
  DOMPurify_sanitize : string -> result thrown string;
  sgMail_send : MailData -> result thrown ClientResponse
}.

Section Server.

Variable lib : Libraries.

Definition sanitizeHtml (dirty : string) : M string :=
  do _ <- emit (Sanitize dirty);
  lift (DOMPurify_sanitize lib dirty).

(** [if (emailData.text) msg.text = emailData.text] *)
Definition only_if_present (o : option string) : option string :=
  if present o then o else None.

Definition make_msg (this : SendGridMCPServer) (emailData : EmailRequest) : MailData :=
  {| msg_to := to emailData;
     msg_from := fromEmail this;
     msg_subject := subject emailData;
     msg_text := only_if_present (text emailData);
     msg_html := only_if_present (html emailData) |}.

Definition sendEmail (this : SendGridMCPServer) (emailData : EmailRequest)
    : M DeliveryReceipt :=
  let msg := make_msg this emailData in
  do _ <- emit (Send msg);
  do response <- lift (sgMail_send lib msg);
  do id <- lift (get "x-message-id" (headers response));
  ret {| receipt_statusCode := statusCode response;
         messageId := or_else id (VStr "unknown") |}.

(** The chain of [&&] that guards the read of [errorBody.errors[0].message]. *)
Definition has_first_message (errorBody : value) : result thrown bool :=
  and_then (Ok (truthy errorBody))
 (and_then (Ok (String.eqb (typeof errorBody) "object"))
 (and_then (in_op "errors" errorBody)
 (let! errors := get "errors" errorBody in
  and_then (Ok (Array_isArray errors))
 (and_then (let! n := get "length" errors in Ok (gt_zero n))
 (let! first := get_index 0 errors in
  and_then (Ok (String.eqb (typeof first) "object"))
           (in_op "message" first)))))).

(** The inner [try]: the message with the first error's text appended. *)
Definition append_first_message (errorMessage : string) (errorBody : value)
    : result thrown string :=
  let! ok := has_first_message errorBody in
  if ok then
    let! errors := get "errors" errorBody in
    let! first := get_index 0 errors in
    let! m := get "message" first in
    Ok (errorMessage +:+ ": " +:+ ToString m)
  else Ok errorMessage.

Definition issue_line (err : ZodIssue) : string :=
  join "." (path err) +:+ ": " +:+ message err.

(** The text for a caught object that has a [response]. *)
Definition sendgrid_error_message (sendGridError : thrown) : M string :=
  do response <- lift (thrown_get "response" sendGridError);
  do status_ <- lift (get_opt "status" response);
  let status := or_else status_ (VStr "unknown") in
  do errorBody <- lift (get_opt "body" response);
  let errorMessage := "SendGrid API error (status: " +:+ ToString status +:+ ")" in
  try_catch (lift (append_first_message errorMessage errorBody))
    (fun parseError =>
       do _ <- emit (ConsoleError "Error parsing SendGrid error response:");
       ret errorMessage).

(** The [catch] block of [handleSendEmail]. *)
Definition on_error (error : thrown) : M Response.t :=
  do _ <- emit (ConsoleError "TOOL_CALL_ERROR:");
  match error with
  | ZodError errors =>
      let errorMessages := join ", " (map issue_line errors) in
      ret (Response.failure ("Validation error: " +:+ errorMessages))
  | _ =>
      do is_sendgrid <- lift (and_then (Ok (truthy_object error)) (thrown_in "response" error));
      if is_sendgrid then
        do errorMessage <- sendgrid_error_message error;
        ret (Response.failure errorMessage)
      else
        ret (Response.failure
               ("Failed to send email: " +:+
                match error with
                | ErrorObject message _ => message
                | _ => "Unknown error"
                end))
  end.

Definition parse_arguments (request : CallToolRequest) : result thrown EmailRequest :=
  match EmailSchema_parse (arguments request) with
  | Ok emailData => Ok emailData
  | Err issues => Err (ZodError issues)
  end.

(** [{...emailData, html: emailData.html ? this.sanitizeHtml(emailData.html) : undefined}] *)
Definition sanitize_request (emailData : EmailRequest) : M EmailRequest :=
  do clean <-
    match html emailData with
    | Some h =>
        if present (Some h)
        then do c <- sanitizeHtml h; ret (Some c)
        else ret None
    | None => ret None
    end;
  ret {| to := to emailData; subject := subject emailData;
         text := text emailData; html := clean |}.

(** The [try] block of [handleSendEmail]. *)
Definition attempt (this : SendGridMCPServer) (request : CallToolRequest)
    : M Response.t :=
  do emailData <- lift (parse_arguments request);
  do sanitizedData <- sanitize_request emailData;
  do response <- sendEmail this sanitizedData;
  ret (Response.success
         ("Email sent successfully! Status: " +:+ pretty (receipt_statusCode response) +:+
          ", Message ID: " +:+ ToString (messageId response))).

Definition handleSendEmail (this : SendGridMCPServer) (request : CallToolRequest)
    : M Response.t :=
  try_catch (attempt this request) on_error.



End Server.

(** ** The test doubles of [main_test.ts] *)

(** [mockSendGrid.send] *)
Definition mockSendGrid_send (msg : MailData) : result thrown ClientResponse :=
  if String.eqb (msg_to msg) "fail@example.com" then
    Err (ErrorObject "SendGrid API Error"
           [("response",
             VObj [("status", VNum 400);
                   ("body", VObj [("errors", VArr [VObj [("message", VStr "Invalid recipient")]])])])])
  else if String.eqb (msg_to msg) "timeout@example.com" then
    Err (ErrorObject "Network timeout" [])
  else
    Ok {| statusCode := 202;
          headers := VObj [("x-message-id", VStr "test-message-id-123")] |}.

(** The sanitizer on the one markup the test expects back unchanged; it
    stands in for DOMPurify in the examples below and answers nothing
    else. *)
Definition safeHtml : string := "<p><strong>Bold</strong> and <em>italic</em> text</p>".

Definition testSanitizeHtml (dirty : string) : result thrown string :=
  if String.eqb dirty safeHtml then Ok safeHtml
  else Err (ErrorObject "no expectation recorded for this markup" []).

Definition testLibraries : Libraries := mkLibraries testSanitizeHtml mockSendGrid_send.

Definition testServer : SendGridMCPServer :=
  mkServer "test-api-key" "sender@example.com".

(** ** The words of the specification *)

(** The three rules of the validator, in the order it is to report them. *)
Inductive rule : Type :=
| recipient_format
| subject_nonempty
| content_presence.

Definition rules : list rule := [recipient_format; subject_nonempty; content_presence].

Definition rule_issue (r : rule) : ZodIssue :=
  match r with
  | recipient_format => mkIssue invalid_string ["to"] "Invalid recipient email address"
  | subject_nonempty => mkIssue too_small ["subject"] "Subject cannot be empty"
  | content_presence => content_issue
  end.

Definition input_field (k : string) (input : value) : value :=
  match input with VObj data => field k data | _ => VUndefined end.

Definition nonempty_string (v : value) : bool :=
  match v with VStr s => negb (String.eqb s "") | _ => false end.

(** An input violates the recipient rule unless [to] is an address, the
    subject rule unless [subject] is a non-empty string, and the content
    rule unless [text] or [html] is a non-empty string. *)
Definition violates (input : value) (r : rule) : bool :=
  match r with
  | recipient_format =>
      negb (match input_field "to" input with VStr s => emailRegex_test s | _ => false end)
  | subject_nonempty => negb (nonempty_string (input_field "subject" input))
  | content_presence =>
      negb (nonempty_string (input_field "text" input) ||
            nonempty_string (input_field "html" input))
  end.

Definition violated (input : value) : list rule := filter (fun r => violates input r = true) rules.

(** Inputs of the declared shape: [to] and [subject] strings, [text] and
    [html] strings when given. *)
Definition is_string (v : value) : bool :=
  match v with VStr _ => true | _ => false end.

Definition optional_string (v : value) : bool :=
  match v with VUndefined | VStr _ => true | _ => false end.

Definition well_typed (input : value) : bool :=
  match input with
  | VObj data =>
      is_string (field "to" data) && is_string (field "subject" data) &&
      optional_string (field "text" data) && optional_string (field "html" data)
  | _ => false
  end.

Definition as_string (v : value) : string :=
  match v with VStr s => s | _ => "" end.

Definition as_optional (v : value) : option string :=
  match v with VStr s => Some s | _ => None end.

Definition request_of (input : value) : EmailRequest :=
  {| to := as_string (input_field "to" input);
     subject := as_string (input_field "subject" input);
     text := as_optional (input_field "text" input);
     html := as_optional (input_field "html" input) |}.

(** The object parse aborts on an input that is not of the declared
    shape; the refinement, and with it the content rule, then does not
    run. *)
Definition parse_aborts (input : value) : bool := negb (well_typed input).

(** A violated rule is reported, except the content rule on an aborted
    parse. *)
Definition reported (input : value) (r : rule) : bool :=
  violates input r &&
  match r with
  | content_presence => negb (parse_aborts input)
  | _ => true
  end.

Definition reported_rules (input : value) : list rule :=
  filter (fun r => reported input r = true) rules.

(** The message for a field that is missing or not a string. *)
Definition type_issue (k : string) (input : value) : ZodIssue :=
  invalid_type_issue [k] t_string (input_field k input).

(** The one message a reported rule gets: its own, or the type message
    when the recipient or the subject is not a string at all. *)
Definition issue_for (input : value) (r : rule) : ZodIssue :=
  match r with
  | recipient_format =>
      if is_string (input_field "to" input) then rule_issue r else type_issue "to" input
  | subject_nonempty =>
      if is_string (input_field "subject" input) then rule_issue r
      else type_issue "subject" input
  | content_presence => rule_issue r
  end.

(** A [text] or [html] that is given but is not a string gets a type
    message of its own. *)
Definition stray_type_issues (input : value) : list ZodIssue :=
  (if optional_string (input_field "text" input) then [] else [type_issue "text" input]) ++
  (if optional_string (input_field "html" input) then [] else [type_issue "html" input]).

(** The issues of the single failure: on an object, one per reported
    rule in the order of the rules, then the stray type messages; on
    anything else, the one message for the input as a whole. *)
Definition expected_issues (input : value) : list ZodIssue :=
  match input with
  | VObj _ => map (issue_for input) (reported_rules input) ++ stray_type_issues input
  | _ => [invalid_type_issue [] t_object input]
  end.

Definition missingRecipientWithTextInput : value :=
  VObj [("subject", VStr ""); ("text", VStr "hi")].

(** The fields the tool declares; every other key is an unknown field. *)
Definition known_fields : list string := ["to"; "subject"; "text"; "html"].

Definition has_unknown_field (input : value) : Prop :=
  match input with
  | VObj data => exists k, k ∈ data.*1 /\ k ∉ known_fields
  | _ => False
  end.

(** A provider failure is a caught object with a [response]. *)
Definition error_response (error : thrown) : option value :=
  match error with
  | ErrorObject _ own => lookup_field "response" own
  | Thrown (VObj fields) => lookup_field "response" fields
  | _ => None
  end.

Definition response_status (response : value) : value := input_field "status" response.
Definition response_body (response : value) : value := input_field "body" response.


(** The first error's message, when the body has an [errors] list whose
    first entry is an object with a [message]. *)
Definition first_error_message (errorBody : value) : option value :=
  match errorBody with
  | VObj body =>
      match lookup_field "errors" body with
      | Some (VArr (VObj first :: _)) => lookup_field "message" first
      | _ => None
      end
  | _ => None
  end.


(** The message id as the success text is to carry it. *)
Definition header_value (response : ClientResponse) : option value :=
  match headers response with
  | VObj fields => lookup_field "x-message-id" fields
  | _ => None
  end.

Definition success_text (status : Z) (id : string) : string :=
  "Email sent successfully! Status: " +:+ pretty status +:+ ", Message ID: " +:+ id.



(** The message id as the claim words it: the header, or "unknown" when
    there is none. *)
Definition stated_message_id (response : ClientResponse) : string :=
  match header_value response with
  | Some v => ToString v
  | None => "unknown"
  end.

(** The message id the response text carries: the header, or "unknown"
    when there is none or it is empty (falsy). *)
Definition reported_message_id (response : ClientResponse) : string :=
  match header_value response with
  | Some v => if truthy v then ToString v else "unknown"
  | None => "unknown"
  end.

Definition has_headers (response : ClientResponse) : Prop :=
  exists fields, headers response = VObj fields.

(** *** Inputs used in the examples *)

Definition request_with (input : value) : CallToolRequest := mkRequest "send_email" input.

(** A well-formed request that also names a sender. *)
Definition spoofedInput : value :=
  VObj [("to", VStr "test@example.com"); ("subject", VStr "Hi"); ("text", VStr "hello");
        ("from", VStr "attacker@example.com")].

Definition emptySubjectInput : value :=
  VObj [("to", VStr "test@example.com"); ("subject", VStr ""); ("text", VStr "hi")].

Definition threeViolationsInput : value :=
  VObj [("to", VStr "invalid-email"); ("subject", VStr "")].

Definition missingRecipientInput : value :=
  VObj [("subject", VStr "")].

Definition htmlInput : value :=
  VObj [("to", VStr "test@example.com"); ("subject", VStr "Test Email");
        ("text", VStr "This is a test email"); ("html", VStr safeHtml)].


(** A provider that answers 202 with an empty message id. *)
Definition emptyIdResponse : ClientResponse :=
  {| statusCode := 202; headers := VObj [("x-message-id", VStr "")] |}.

Definition emptyIdLibraries : Libraries :=
  mkLibraries testSanitizeHtml (fun _ => Ok emptyIdResponse).

(** ** The tool list and the start-up *)

(** One entry of [inputSchema.properties]. *)
Record PropertySchema : Type := mkProperty {
  property_type : string;
  property_format : option string;
  property_description : string
}.

Record InputSchema : Type := mkInputSchema {
  schema_type : string;
  properties : list (string * PropertySchema);
  required : list string;
  additionalProperties : bool
}.

Record Tool : Type := mkTool {
  tool_name : string;
  tool_description : string;
  inputSchema : InputSchema
}.

(** What the handler registered for [ListToolsRequestSchema] answers. *)
Definition listTools : list Tool :=
  [ mkTool "send_email" "Send an email using SendGrid API"
      (mkInputSchema "object"
         [ ("to", mkProperty "string" (Some "email") "Recipient email address");
           ("subject", mkProperty "string" None "Email subject line");
           ("text", mkProperty "string" None
              "Plain text email content (optional if html is provided)");
           ("html", mkProperty "string" None
              "HTML email content (optional if text is provided)") ]
         ["to"; "subject"]
         false) ].

(** The constructor with what it does to the process: it logs and exits
    with status 1, or it comes up, having handed the key to
    [sgMail.setApiKey] when there is one. *)
Inductive startup : Type :=
| Exited (status : Z) (logged : string)
| Running (this : SendGridMCPServer) (setApiKey : option string).

Definition constructor (env : gmap string string) (testMode : bool) : startup :=
  let apiKey := env_get env "SENDGRID_API_KEY" in
  if String.eqb apiKey "" && negb testMode then
    Exited 1 "ERROR: SENDGRID_API_KEY environment variable is required"
  else
    let fromEmail := env_get env "SENDGRID_FROM_EMAIL" in
    if String.eqb fromEmail "" && negb testMode then
      Exited 1 "ERROR: SENDGRID_FROM_EMAIL environment variable is required"
    else
      Running (mkServer apiKey fromEmail)
              (if negb (String.eqb apiKey "") then Some apiKey else None).

(** ** Further notions used in the properties *)

(** The characters an accepted recipient is made of. *)
Definition address_char (c : ascii) : bool := local_char c || is_char "@" c.

Definition count_char (x : ascii) (l : list ascii) : nat :=
  length (filter (fun c => c = x) l).

(** The calls made to the sanitizer during a run. *)
Fixpoint sanitized (t : list event) : list string :=
  match t with
  | [] => []
  | Sanitize dirty :: rest => dirty :: sanitized rest
  | _ :: rest => sanitized rest
  end.

(** The lines written with [console.error] during a run. *)
Fixpoint logged (t : list event) : list string :=
  match t with
  | [] => []
  | ConsoleError label :: rest => label :: logged rest
  | _ :: rest => logged rest
  end.

(** The body's [errors] list begins with [null]. *)
Definition errors_start_with_null (errorBody : value) : bool :=
  match errorBody with
  | VObj body =>
      match lookup_field "errors" body with
      | Some (VArr (VNull :: _)) => true
      | _ => false
      end
  | _ => false
  end.

(** The text for a caught object with a [response], for any status. *)
Definition sendgrid_error_text (response : value) : string :=
  let base := "SendGrid API error (status: " +:+
              ToString (or_else (response_status response) (VStr "unknown")) +:+ ")" in
  match first_error_message (response_body response) with
  | Some m => base +:+ ": " +:+ ToString m
  | None => base
  end.

Definition is_zod_error (error : thrown) : bool :=
  match error with ZodError _ => true | _ => false end.

(** [error instanceof Error ? error.message : 'Unknown error'] *)
Definition error_message (error : thrown) : string :=
  match error with
  | ErrorObject message _ => message
  | _ => "Unknown error"
  end.

(** More inputs for the examples. *)
Definition timeoutInput : value :=
  VObj [("to", VStr "timeout@example.com"); ("subject", VStr "Hi"); ("text", VStr "hello")].

Definition scriptOnlyInput : value :=
  VObj [("to", VStr "test@example.com"); ("subject", VStr "Hi");
        ("html", VStr "<script>alert(1)</script>")].

(** A sanitizer that leaves nothing of the markup it is given. *)
Definition strippingLibraries : Libraries :=
  mkLibraries (fun _ => Ok "") mockSendGrid_send.



(** A provider whose answer has no headers. *)
Definition headlessLibraries : Libraries :=
  mkLibraries testSanitizeHtml (fun _ => Ok {| statusCode := 202; headers := VUndefined |}).

(** * Properties *)

Lemma sent_app (t t' : list event) : sent (t ++ t') = sent t ++ sent t'.
Proof.
  induction t as [|ev t IH]; [reflexivity|].
  destruct ev; simpl; rewrite IH; reflexivity.
Qed.

Lemma get_opt_returns (k : string) (v : value) : exists x, get_opt k v = Ok x.
Proof. destruct v; simpl; eauto. Qed.

(** On an object [get_opt] reads the field; on anything else the handler
    can meet under a [response] it reads [undefined]. *)
Lemma get_opt_input_field (k : string) (v : value) :
  k <> "length" -> get_opt k v = Ok (input_field k v).
Proof.
  intros Hk. apply String.eqb_neq in Hk.
  destruct v; unfold get_opt, get, input_field; simpl nullish; cbv iota;
    rewrite ?Hk; reflexivity.
Qed.

(** *** The monad *)

Lemma bind_lift_Ok {A B : Type} (a : A) (k : A -> M B) :
  (do x <- lift (Ok a); k x) = k a.
Proof. unfold bind, lift. destruct (k a). reflexivity. Qed.

Lemma bind_lift_Err {A B : Type} (e : thrown) (k : A -> M B) :
  (do x <- lift (Err e); k x) = (Err e, []).
Proof. reflexivity. Qed.

Lemma bind_ret {A B : Type} (a : A) (k : A -> M B) :
  (do x <- ret a; k x) = k a.
Proof. unfold bind, ret. destruct (k a). reflexivity. Qed.

Lemma bind_emit {B : Type} (ev : event) (k : M B) :
  (do _ <- emit ev; k) = (k.1, ev :: k.2).
Proof. unfold bind, emit. destruct k. reflexivity. Qed.

Section Properties.

Variable lib : Libraries.

(** *** The [catch] block *)

Lemma append_first_message_spec (errorMessage : string) (errorBody : value) :
  match append_first_message errorMessage errorBody with
  | Ok s =>
      s = match first_error_message errorBody with
          | Some m => errorMessage +:+ ": " +:+ ToString m
          | None => errorMessage
          end
  | Err _ => first_error_message errorBody = None
  end.
Proof.
  unfold append_first_message, has_first_message, first_error_message.
  destruct errorBody as [| |b|n|s|elems|body]; try reflexivity.
  - destruct b; reflexivity.
  - simpl. destruct (n =? 0)%Z; reflexivity.
  - simpl. destruct (String.eqb s ""); reflexivity.
  - simpl. unfold has_field, field.
    destruct (lookup_field "errors" body) as [errors|]; [|reflexivity].
    destruct errors as [| |b|n|s|[|first rest]|fs]; try reflexivity.
    destruct first as [| |b|n|s|elems|first]; try reflexivity.
    simpl. unfold has_field, field.
    destruct (lookup_field "message" first); reflexivity.
Qed.

(** With a [response] in hand the text is always produced: a throw while
    reading the body is caught by the inner [try]. *)
Lemma sendgrid_error_message_with (error : thrown) (response : value) :
  thrown_get "response" error = Ok response ->
  exists t,
    sendgrid_error_message error =
    (Ok (let base := "SendGrid API error (status: " +:+
                     ToString (or_else (response_status response) (VStr "unknown")) +:+ ")" in
         match first_error_message (response_body response) with
         | Some m => base +:+ ": " +:+ ToString m
         | None => base
         end), t) /\ sent t = [].
Proof.
  intros Hget. unfold sendgrid_error_message. rewrite Hget, bind_lift_Ok.
  rewrite (get_opt_input_field "status"), bind_lift_Ok by discriminate.
  rewrite (get_opt_input_field "body"), bind_lift_Ok by discriminate.
  fold (response_status response). fold (response_body response).
  unfold try_catch, lift, bind, emit, ret. cbv zeta.
  match goal with |- context [append_first_message ?m ?b] =>
    pose proof (append_first_message_spec m b) as Hspec;
    destruct (append_first_message m b) as [s|e]
  end.
  - rewrite <- Hspec. simpl. eauto.
  - rewrite Hspec. simpl. eauto.
Qed.

Lemma on_error_zod (errors : list ZodIssue) :
  on_error (ZodError errors) =
  (Ok (Response.failure ("Validation error: " +:+ join ", " (map issue_line errors))),
   [ConsoleError "TOOL_CALL_ERROR:"]).
Proof. reflexivity. Qed.

(** A caught value is taken for a SendGrid error exactly when it is an
    object with a [response]; the test itself never throws. *)
Lemma is_sendgrid_spec (error : thrown) :
  and_then (Ok (truthy_object error)) (thrown_in "response" error) =
  Ok (match error_response error with Some _ => true | None => false end).
Proof.
  destruct error as [errors|message own|v]; simpl; [reflexivity|by unfold has_field|].
  destruct v as [| |b|n|s|elems|fields]; try reflexivity.
  - destruct b; reflexivity.
  - simpl. destruct (n =? 0)%Z; reflexivity.
  - simpl. destruct (String.eqb s ""); reflexivity.
Qed.

Lemma error_response_get (error : thrown) (response : value) :
  error_response error = Some response -> thrown_get "response" error = Ok response.
Proof.
  destruct error as [errors|message own|v]; simpl; [discriminate| |].
  - unfold field. by intros ->.
  - destruct v; try discriminate. simpl. unfold field. by intros ->.
Qed.

Lemma on_error_provider (error : thrown) (response : value) :
  error_response error = Some response ->
  exists t,
    on_error error =
    (Ok (Response.failure
           (let base := "SendGrid API error (status: " +:+
                        ToString (or_else (response_status response) (VStr "unknown")) +:+ ")" in
            match first_error_message (response_body response) with
            | Some m => base +:+ ": " +:+ ToString m
            | None => base
            end)), t) /\ sent t = [].
Proof.
  intros Herr.
  destruct (sendgrid_error_message_with error response (error_response_get _ _ Herr))
    as (t & Hmsg & Ht).
  assert (Hnz : forall errors, error <> ZodError errors)
    by (intros errors ->; discriminate).
  unfold on_error. rewrite is_sendgrid_spec, Herr, Hmsg, bind_lift_Ok, bind_emit.
  destruct error; [by destruct (Hnz errors)| |];
    unfold bind, ret; simpl; rewrite ?app_nil_r;
    (eexists; split; [reflexivity|exact Ht]).
Qed.

Lemma on_error_other (error : thrown) :
  error_response error = None ->
  (forall errors, error <> ZodError errors) ->
  on_error error =
  (Ok (Response.failure
         ("Failed to send email: " +:+
          match error with ErrorObject message _ => message | _ => "Unknown error" end)),
   [ConsoleError "TOOL_CALL_ERROR:"]).
Proof.
  intros Herr Hnz. unfold on_error. rewrite is_sendgrid_spec, Herr.
  destruct error; [by destruct (Hnz errors)| |]; reflexivity.
Qed.

(** Whatever was caught, the [catch] block returns an error response and
    sends nothing. *)
Lemma on_error_returns (error : thrown) :
  exists msg t, on_error error = (Ok (Response.failure msg), t) /\ sent t = [].
Proof.
  destruct (error_response error) as [response|] eqn:Herr.
  - destruct (on_error_provider error response Herr) as (t & -> & Ht). eauto.
  - destruct error as [errors|message own|v].
    + rewrite on_error_zod. eauto.
    + rewrite on_error_other by (done || intros ? [=]). eauto.
    + rewrite on_error_other by (done || intros ? [=]). eauto.
Qed.


(** *** The [try] block *)

Lemma sendEmail_unfold (this : SendGridMCPServer) (d : EmailRequest) :
  sendEmail lib this d =
  (match sgMail_send lib (make_msg this d) with
   | Err e => Err e
   | Ok response =>
       match get "x-message-id" (headers response) with
       | Err e => Err e
       | Ok id => Ok {| receipt_statusCode := statusCode response;
                        messageId := or_else id (VStr "unknown") |}
       end
   end, [Send (make_msg this d)]).
Proof.
  unfold sendEmail, bind, emit, lift, ret.
  destruct (sgMail_send lib (make_msg this d)) as [response|e]; [|reflexivity].
  destruct (get "x-message-id" (headers response)); reflexivity.
Qed.

Lemma sanitize_request_sent (d : EmailRequest) : sent (sanitize_request lib d).2 = [].
Proof.
  unfold sanitize_request, sanitizeHtml, bind, emit, lift, ret.
  destruct (html d) as [h|]; [|reflexivity].
  destruct (present (Some h)); [|reflexivity].
  destruct (DOMPurify_sanitize lib h); reflexivity.
Qed.

Lemma attempt_unfold (this : SendGridMCPServer) (request : CallToolRequest) :
  attempt lib this request =
  match parse_arguments request with
  | Err e => (Err e, [])
  | Ok d =>
      match sanitize_request lib d with
      | (Err e, t) => (Err e, t)
      | (Ok sd, t) =>
          match sendEmail lib this sd with
          | (Err e, t') => (Err e, t ++ t')
          | (Ok r, t') =>
              (Ok (Response.success
                     ("Email sent successfully! Status: " +:+ pretty (receipt_statusCode r) +:+
                      ", Message ID: " +:+ ToString (messageId r))), t ++ t')
          end
      end
  end.
Proof.
  unfold attempt, bind at 1, lift at 1.
  destruct (parse_arguments request) as [d|e]; [|reflexivity].
  unfold bind at 1.
  destruct (sanitize_request lib d) as [[sd|e] t]; [|reflexivity].
  unfold bind, ret.
  destruct (sendEmail lib this sd) as [[r|e] t']; simpl; rewrite ?app_nil_r; reflexivity.
Qed.

Lemma attempt_sent (this : SendGridMCPServer) (request : CallToolRequest) (m : MailData) :
  m ∈ sent (attempt lib this request).2 -> msg_from m = fromEmail this.
Proof.
  rewrite attempt_unfold.
  destruct (parse_arguments request) as [d|e]; [|simpl; by intros ?%elem_of_nil].
  pose proof (sanitize_request_sent d) as Hs.
  destruct (sanitize_request lib d) as [[sd|e] t]; simpl in Hs;
    [|simpl; rewrite Hs; by intros ?%elem_of_nil].
  rewrite sendEmail_unfold.
  assert (Hin : m ∈ sent (t ++ [Send (make_msg this sd)]) -> msg_from m = fromEmail this).
  { rewrite sent_app, Hs. simpl. intros ->%list_elem_of_singleton. reflexivity. }
  destruct (sgMail_send lib (make_msg this sd)) as [response|e]; [|exact Hin].
  destruct (get "x-message-id" (headers response)); exact Hin.
Qed.

Lemma attempt_invalid (this : SendGridMCPServer) (request : CallToolRequest)
    (issues : list ZodIssue) :
  EmailSchema_parse (arguments request) = Err issues ->
  attempt lib this request = (Err (ZodError issues), []).
Proof.
  intros H. rewrite attempt_unfold. unfold parse_arguments. rewrite H. reflexivity.
Qed.

(** A validated request whose markup the sanitizer returns is handed to
    the delivery client once, as the message built from it. *)
Lemma validated_request_is_sent (this : SendGridMCPServer) (request : CallToolRequest)
    (emailData sanitizedData : EmailRequest) :
  parse_arguments request = Ok emailData ->
  (sanitize_request lib emailData).1 = Ok sanitizedData ->
  sent (attempt lib this request).2 = [make_msg this sanitizedData].
Proof.
  intros Hparse Hclean. rewrite attempt_unfold, Hparse.
  pose proof (sanitize_request_sent emailData) as Hs.
  destruct (sanitize_request lib emailData) as [r t]. simpl in Hclean, Hs. subst r.
  rewrite sendEmail_unfold.
  assert (Hsent : sent (t ++ [Send (make_msg this sanitizedData)]) =
                  [make_msg this sanitizedData])
    by (rewrite sent_app, Hs; reflexivity).
  destruct (sgMail_send lib (make_msg this sanitizedData)) as [response|e]; [|exact Hsent].
  destruct (get "x-message-id" (headers response)); exact Hsent.
Qed.

(** *** The handler *)


Lemma handleSendEmail_sent (this : SendGridMCPServer) (request : CallToolRequest) :
  sent (handleSendEmail lib this request).2 = sent (attempt lib this request).2.
Proof.
  unfold handleSendEmail, try_catch.
  destruct (attempt lib this request) as [[resp|e] t]; [reflexivity|].
  destruct (on_error_returns e) as (msg & t' & -> & Ht').
  simpl. rewrite sent_app, Ht', app_nil_r. reflexivity.
Qed.

(** *** The dispatcher *)

(** C4: when validation fails, the dispatcher returns a response with
    [isError: true] and hands nothing to the delivery client. *)
Theorem invalid_input_is_answered_without_sending
    (this : SendGridMCPServer) (request : CallToolRequest) (issues : list ZodIssue) :
  EmailSchema_parse (arguments request) = Err issues ->
  exists resp t,
    handleSendEmail lib this request = (Ok resp, t) /\
    Response.isError resp = Some true /\
    sent t = [].
Proof.
  intros Hinvalid. unfold handleSendEmail.
  rewrite (attempt_invalid this request issues Hinvalid).
  unfold try_catch. rewrite on_error_zod. simpl. eauto.
Qed.



(** C9, as amended: after a successful send the response text is
    "Email sent successfully! Status: <statusCode>, Message ID: <id>",
    where <id> is the x-message-id header, or "unknown" when that header
    is absent or empty. *)
Theorem success_text_carries_status_and_id
    (this : SendGridMCPServer) (request : CallToolRequest)
    (emailData sanitizedData : EmailRequest) (response : ClientResponse) :
  parse_arguments request = Ok emailData ->
  (sanitize_request lib emailData).1 = Ok sanitizedData ->
  sgMail_send lib (make_msg this sanitizedData) = Ok response ->
  has_headers response ->
  (handleSendEmail lib this request).1 =
  Ok (Response.success (success_text (statusCode response) (reported_message_id response))).
Proof.
  intros Hparse Hclean Hsend [fields Hheaders].
  unfold handleSendEmail. rewrite attempt_unfold, Hparse.
  destruct (sanitize_request lib emailData) as [r t]. simpl in Hclean. subst r.
  rewrite sendEmail_unfold, Hsend, Hheaders. unfold try_catch. cbn [get fst].
  unfold success_text, reported_message_id, header_value, field, or_else.
  rewrite Hheaders. cbn [receipt_statusCode messageId].
  destruct (lookup_field "x-message-id" fields) as [v|]; [|reflexivity].
  destruct (truthy v); reflexivity.
Qed.


End Properties.

(** *** The configuration *)

(** The sender of a running server is the [SENDGRID_FROM_EMAIL] the
    constructor read; outside test mode it is not empty. *)
Lemma new_SendGridMCPServer_fromEmail (env : gmap string string) (testMode : bool)
    (this : SendGridMCPServer) :
  new_SendGridMCPServer env testMode = Some this ->
  fromEmail this = env_get env "SENDGRID_FROM_EMAIL" /\
  (testMode = false -> fromEmail this <> "").
Proof.
  unfold new_SendGridMCPServer.
  destruct (String.eqb (env_get env "SENDGRID_API_KEY") "" && negb testMode); [discriminate|].
  destruct (String.eqb (env_get env "SENDGRID_FROM_EMAIL") "") eqn:Hfrom;
    destruct testMode; simpl; try discriminate; intros [= <-]; simpl;
    (split; [reflexivity|]); try discriminate.
  intros _. by apply String.eqb_neq.
Qed.

(** *** The validator *)

(** The validator reads the four fields of its shape and nothing else. *)
Lemma EmailSchema_reads_its_shape_only (data data' : list (string * value)) :
  (forall k, k ∈ known_fields -> field k data = field k data') ->
  EmailSchema_parse (VObj data) = EmailSchema_parse (VObj data').
Proof.
  intros Hsame.
  unfold EmailSchema_parse, ZodType_parse, EmailSchema, ZodEffects_refinement, EmailObject_parse.
  rewrite !Hsame by (unfold known_fields; set_solver). reflexivity.
Qed.

(** So a field outside the shape changes nothing, wherever it is put. *)
Lemma unknown_field_changes_nothing (before after : list (string * value))
    (k : string) (v : value) :
  k ∉ known_fields ->
  EmailSchema_parse (VObj (before ++ (k, v) :: after)) =
  EmailSchema_parse (VObj (before ++ after)).
Proof.
  intros Hunknown. apply EmailSchema_reads_its_shape_only. intros k' Hknown.
  assert (Hne : String.eqb k' k = false) by (apply String.eqb_neq; congruence).
  unfold field. induction before as [|[k0 v0] before IH]; simpl.
  - rewrite Hne. reflexivity.
  - destruct (String.eqb k' k0); [reflexivity|exact IH].
Qed.

Lemma too_short_is_empty (s : string) : (String.length s <? 1)%nat = String.eqb s "".
Proof. destruct s; reflexivity. Qed.

(** On an input of the declared shape ([to] and [subject] strings, [text]
    and [html] strings when given) the validator succeeds when no rule is
    violated, and otherwise fails once, with exactly one issue per
    violated rule, in the order recipient format, subject non-emptiness,
    content presence. *)
Theorem EmailSchema_reports_every_violated_rule (input : value) :
  well_typed input = true ->
  EmailSchema_parse input =
  match violated input with
  | [] => Ok (request_of input)
  | rs => Err (map rule_issue rs)
  end.
Proof.
  destruct input as [| | | | | |data]; try discriminate.
  unfold well_typed, violated, rules, violates, request_of, input_field.
  unfold EmailSchema_parse, ZodType_parse, EmailSchema, ZodEffects_refinement,
    EmailObject_parse, ZodString_parse, ZodOptional_parse, has_content.
  intros Htyped.
  destruct (field "to" data) as [| | | |t| |]; try discriminate.
  destruct (field "subject" data) as [| | | |s| |]; try discriminate.
  cbn [map concat run_check app nonempty_string]. rewrite too_short_is_empty.
  destruct (emailRegex_test t), (String.eqb s "");
    destruct (field "text" data) as [| | | |x| |]; try discriminate;
    destruct (field "html" data) as [| | | |h| |]; try discriminate;
    cbn [nonempty_string mergeObjectSync parsed is_dirty orb present text html app];
    repeat match goal with |- context [String.eqb ?a ""] => destruct (String.eqb a "") end;
    reflexivity.
Qed.

(** C3 as worded fails where a required field is missing: the object
    parse aborts, so the content rule is never checked and the failure
    has no issue for it. *)
Lemma missing_recipient_hides_the_content_rule :
  ~ (forall input issues,
       (2 <= length (violated input))%nat ->
       EmailSchema_parse input = Err issues ->
       map path issues = map (fun r => path (rule_issue r)) (violated input)).
Proof.
  intros Hclaim.
  specialize (Hclaim missingRecipientInput
                [mkIssue invalid_type ["to"] "Required";
                 mkIssue too_small ["subject"] "Subject cannot be empty"]).
  vm_compute in Hclaim.
  specialize (Hclaim ltac:(repeat constructor) eq_refl). discriminate.
Qed.

Lemma EmailSchema_reports_every_violated_rule_witness :
  EmailSchema_parse threeViolationsInput =
  Err [mkIssue invalid_string ["to"] "Invalid recipient email address";
       mkIssue too_small ["subject"] "Subject cannot be empty";
       mkIssue custom ["content"] "Either text or html content must be provided"].
Proof.
  exact (EmailSchema_reports_every_violated_rule threeViolationsInput eq_refl).
Defined.

(** C2 fails on the code: a request with a field the tool does not
    declare passes validation, the field is dropped, and the mail is
    sent. *)
Theorem unknown_field_is_dropped_not_rejected :
  has_unknown_field spoofedInput /\
  EmailSchema_parse spoofedInput =
    Ok {| to := "test@example.com"; subject := "Hi"; text := Some "hello"; html := None |} /\
  handleSendEmail testLibraries testServer (request_with spoofedInput) =
    (Ok (Response.success
           "Email sent successfully! Status: 202, Message ID: test-message-id-123"),
     [Send {| msg_to := "test@example.com"; msg_from := "sender@example.com";
              msg_subject := "Hi"; msg_text := Some "hello"; msg_html := None |}]).
Proof.
  split; [|split; reflexivity].
  exists "from". split; [set_solver|]. unfold known_fields.
  intros Hin. repeat (apply elem_of_cons in Hin as [Hin|Hin]; [discriminate|]).
  by apply elem_of_nil in Hin.
Qed.

(** C1: every message the dispatcher hands to the delivery client has the
    configured [fromEmail] as its sender; two runs under one configuration
    send from the same address, whatever the callers supplied and whatever
    the libraries did. *)
Theorem sender_is_the_configured_one
    (this : SendGridMCPServer) (lib1 lib2 : Libraries)
    (request1 request2 : CallToolRequest) (m1 m2 : MailData) :
  m1 ∈ sent (handleSendEmail lib1 this request1).2 ->
  m2 ∈ sent (handleSendEmail lib2 this request2).2 ->
  msg_from m1 = fromEmail this /\ msg_from m2 = msg_from m1.
Proof.
  rewrite !handleSendEmail_sent. intros H1%attempt_sent H2%attempt_sent.
  split; congruence.
Qed.

Lemma sender_is_the_configured_one_witness :
  msg_from (make_msg testServer (request_of htmlInput)) = "sender@example.com" /\
  msg_from (make_msg testServer (request_of spoofedInput)) =
  msg_from (make_msg testServer (request_of htmlInput)).
Proof.
  apply (sender_is_the_configured_one testServer testLibraries testLibraries
           (request_with htmlInput) (request_with spoofedInput)).
  - vm_compute. constructor.
  - vm_compute. constructor.
Defined.

Lemma invalid_input_is_answered_without_sending_witness :
  exists resp t,
    handleSendEmail testLibraries testServer (request_with emptySubjectInput) = (Ok resp, t) /\
    Response.isError resp = Some true /\
    sent t = [].
Proof.
  apply (invalid_input_is_answered_without_sending testLibraries testServer
           (request_with emptySubjectInput)
           [mkIssue too_small ["subject"] "Subject cannot be empty"]).
  reflexivity.
Defined.


(** C9 as worded fails on an empty header: the text then reads
    "unknown", not the (empty) header. *)
Lemma empty_message_id_reads_unknown :
  ~ (forall lib this request emailData sanitizedData response,
       parse_arguments request = Ok emailData ->
       (sanitize_request lib emailData).1 = Ok sanitizedData ->
       sgMail_send lib (make_msg this sanitizedData) = Ok response ->
       has_headers response ->
       (handleSendEmail lib this request).1 =
       Ok (Response.success
             (success_text (statusCode response) (stated_message_id response)))).
Proof.
  intros Hclaim.
  specialize (Hclaim emptyIdLibraries testServer (request_with htmlInput)
                (request_of htmlInput) (request_of htmlInput) emptyIdResponse
                eq_refl eq_refl eq_refl).
  assert (Hh : has_headers emptyIdResponse) by (eexists; reflexivity).
  specialize (Hclaim Hh). vm_compute in Hclaim. discriminate.
Qed.

Lemma success_text_carries_status_and_id_witness :
  (handleSendEmail testLibraries testServer (request_with htmlInput)).1 =
  Ok (Response.success
        "Email sent successfully! Status: 202, Message ID: test-message-id-123").
Proof.
  apply (success_text_carries_status_and_id testLibraries testServer (request_with htmlInput)
           (request_of htmlInput) (request_of htmlInput)
           {| statusCode := 202;
              headers := VObj [("x-message-id", VStr "test-message-id-123")] |}).
  - reflexivity.
  - reflexivity.
  - reflexivity.
  - eexists. reflexivity.
Defined.


(** * Further properties of the code *)

(** ** The validator, on every input *)

Lemma EmailObject_parse_unfold (data : list (string * value)) :
  EmailObject_parse (VObj data) =
  (mergeObjectSync
     (ZodString_parse [check_email "Invalid recipient email address"] ["to"] (field "to" data)).1
     (ZodString_parse [check_min 1 "Subject cannot be empty"] ["subject"] (field "subject" data)).1
     (ZodOptional_parse (ZodString_parse []) ["text"] (field "text" data)).1
     (ZodOptional_parse (ZodString_parse []) ["html"] (field "html" data)).1,
   (ZodString_parse [check_email "Invalid recipient email address"] ["to"] (field "to" data)).2 ++
   (ZodString_parse [check_min 1 "Subject cannot be empty"] ["subject"] (field "subject" data)).2 ++
   (ZodOptional_parse (ZodString_parse []) ["text"] (field "text" data)).2 ++
   (ZodOptional_parse (ZodString_parse []) ["html"] (field "html" data)).2).
Proof.
  unfold EmailObject_parse.
  destruct (ZodString_parse _ ["to"] _), (ZodString_parse _ ["subject"] _),
    (ZodOptional_parse _ ["text"] _), (ZodOptional_parse _ ["html"] _).
  reflexivity.
Qed.

Lemma ZodString_parse_not_string (checks : list ZodStringCheck) (p : list string) (v : value) :
  is_string v = false ->
  ZodString_parse checks p v = (INVALID, [invalid_type_issue p t_string v]).
Proof. destruct v; (discriminate || reflexivity). Qed.

Lemma ZodString_parse_string (checks : list ZodStringCheck) (p : list string) (s : string) :
  parsed (ZodString_parse checks p (VStr s)).1 = Some s.
Proof. simpl. destruct (concat _); reflexivity. Qed.

Lemma ZodOptional_parse_not_optional (p : list string) (v : value) :
  optional_string v = false ->
  ZodOptional_parse (ZodString_parse []) p v = (INVALID, [invalid_type_issue p t_string v]).
Proof. destruct v; (discriminate || reflexivity). Qed.

Lemma ZodOptional_parse_optional (p : list string) (v : value) :
  optional_string v = true ->
  ZodOptional_parse (ZodString_parse []) p v = (VALID (as_optional v), []).
Proof. destruct v; (discriminate || reflexivity). Qed.

Lemma invalid_type_issue_code (p : list string) (expected : ZodParsedType) (v : value) :
  code (invalid_type_issue p expected v) = invalid_type.
Proof. reflexivity. Qed.

(** No [_parse] of the object or of its fields raises a custom issue:
    that code is the refinement's alone. *)
Lemma ZodString_parse_codes (checks : list ZodStringCheck) (p : list string) (v : value) :
  Forall (fun i => code i <> custom) (ZodString_parse checks p v).2.
Proof.
  destruct v; try (repeat constructor; discriminate).
  simpl. induction checks as [|c checks IH]; simpl; [constructor|].
  apply Forall_app. split; [|exact IH].
  destruct c as [msg|n msg]; simpl.
  - destruct (emailRegex_test s); repeat constructor; discriminate.
  - destruct (String.length s <? n)%nat; repeat constructor; discriminate.
Qed.

Lemma ZodOptional_parse_codes (p : list string) (v : value) :
  Forall (fun i => code i <> custom) (ZodOptional_parse (ZodString_parse []) p v).2.
Proof. destruct v; repeat constructor; discriminate. Qed.

Lemma EmailObject_parse_codes (input : value) :
  Forall (fun i => code i <> custom) (EmailObject_parse input).2.
Proof.
  destruct input; try (repeat constructor; discriminate).
  rewrite EmailObject_parse_unfold. cbn [snd].
  repeat (apply Forall_app; split);
    auto using ZodString_parse_codes, ZodOptional_parse_codes.
Qed.

(** A field of the wrong type aborts the object parse and leaves an
    [invalid_type] issue. *)
Lemma EmailObject_parse_ill_typed (input : value) :
  well_typed input = false ->
  (EmailObject_parse input).1 = INVALID /\
  exists i, i ∈ (EmailObject_parse input).2 /\ code i = invalid_type.
Proof.
  destruct input as [| |b|n|s|elems|data];
    try (intros _; split; [reflexivity|eexists; split; [by left|reflexivity]]).
  unfold well_typed. rewrite EmailObject_parse_unfold. cbn [fst snd].
  destruct (is_string (field "to" data)) eqn:Hto.
  2:{ intros _. rewrite (ZodString_parse_not_string _ _ _ Hto). split; [reflexivity|].
      eexists. split; [apply elem_of_app; left; by left|reflexivity]. }
  destruct (is_string (field "subject" data)) eqn:Hsubject.
  2:{ intros _. rewrite (ZodString_parse_not_string _ ["subject"] _ Hsubject). split.
      - destruct (field "to" data); try discriminate.
        unfold mergeObjectSync. rewrite ZodString_parse_string. reflexivity.
      - eexists. split;
          [apply elem_of_app; right; apply elem_of_app; left; by left|reflexivity]. }
  destruct (field "to" data) as [| | | |t| |]; try discriminate.
  destruct (field "subject" data) as [| | | |sj| |]; try discriminate.
  destruct (optional_string (field "text" data)) eqn:Htext.
  2:{ intros _. rewrite (ZodOptional_parse_not_optional _ _ Htext). split.
      - unfold mergeObjectSync. rewrite !ZodString_parse_string. reflexivity.
      - eexists. split;
          [do 2 (apply elem_of_app; right); apply elem_of_app; left; by left|reflexivity]. }
  destruct (optional_string (field "html" data)) eqn:Hhtml; [discriminate|].
  intros _. rewrite (ZodOptional_parse_not_optional _ _ Hhtml).
  rewrite (ZodOptional_parse_optional _ _ Htext). split.
  - unfold mergeObjectSync. rewrite !ZodString_parse_string. reflexivity.
  - eexists. split; [do 3 (apply elem_of_app; right); by left|reflexivity].
Qed.

(** On an input of the declared shape the object parse keeps the four
    fields as they came and raises the issues of the two string checks. *)
Lemma EmailObject_parse_well_typed (input : value) :
  well_typed input = true ->
  EmailObject_parse input =
  (let issues :=
     (if emailRegex_test (to (request_of input)) then []
      else [rule_issue recipient_format]) ++
     (if String.eqb (subject (request_of input)) "" then [rule_issue subject_nonempty]
      else []) in
   (match issues with
    | [] => VALID (request_of input)
    | _ => DIRTY (request_of input)
    end, issues)).
Proof.
  destruct input as [| | | | | |data]; try discriminate.
  unfold well_typed, request_of, input_field.
  unfold EmailObject_parse, ZodString_parse, ZodOptional_parse.
  intros Htyped.
  destruct (field "to" data) as [| | | |t| |]; try discriminate.
  destruct (field "subject" data) as [| | | |s| |]; try discriminate.
  cbn [map concat run_check app as_string to subject]. rewrite too_short_is_empty.
  destruct (emailRegex_test t), (String.eqb s "");
    destruct (field "text" data) as [| | | |x| |]; try discriminate;
    destruct (field "html" data) as [| | | |h| |]; try discriminate;
    reflexivity.
Qed.

Lemma EmailSchema_parse_Ok_inv (input : value) (emailData : EmailRequest) :
  EmailSchema_parse input = Ok emailData ->
  well_typed input = true /\
  emailData = request_of input /\
  emailRegex_test (to emailData) = true /\
  subject emailData <> "" /\
  has_content emailData = true.
Proof.
  unfold EmailSchema_parse, ZodType_parse, EmailSchema, ZodEffects_refinement.
  destruct (well_typed input) eqn:Htyped.
  - rewrite (EmailObject_parse_well_typed input Htyped). cbv zeta.
    destruct (emailRegex_test (to (request_of input))) eqn:Haddress;
      destruct (String.eqb (subject (request_of input)) "") eqn:Hempty;
      cbn [app]; try discriminate.
    destruct (has_content (request_of input)) eqn:Hcontent; [|discriminate].
    intros [= <-]. repeat split; try assumption. by apply String.eqb_neq.
  - destruct (EmailObject_parse_ill_typed input Htyped) as [Hinvalid _].
    destruct (EmailObject_parse input) as [r issues]. simpl in Hinvalid. subst r.
    discriminate.
Qed.

(** X1: whatever the validator accepts is a request of the declared
    shape, returned field for field as it came (nothing trimmed or
    rewritten), whose recipient matches the address pattern, whose subject
    is not empty and which has a non-empty text or html. *)
Theorem accepted_request_is_valid (input : value) (emailData : EmailRequest) :
  EmailSchema_parse input = Ok emailData ->
  well_typed input = true /\
  emailData = request_of input /\
  emailRegex_test (to emailData) = true /\
  subject emailData <> "" /\
  has_content emailData = true.
Proof. apply EmailSchema_parse_Ok_inv. Qed.

Lemma accepted_request_is_valid_witness :
  well_typed htmlInput = true /\
  request_of htmlInput = request_of htmlInput /\
  emailRegex_test (to (request_of htmlInput)) = true /\
  subject (request_of htmlInput) <> "" /\
  has_content (request_of htmlInput) = true.
Proof.
  apply (accepted_request_is_valid htmlInput (request_of htmlInput)). reflexivity.
Defined.

(** X2: a failure of the validator always names at least one issue, so
    the dispatcher's "Validation error: ..." text is never bare. *)
Theorem rejection_names_an_issue (input : value) (issues : list ZodIssue) :
  EmailSchema_parse input = Err issues -> issues <> [].
Proof.
  unfold EmailSchema_parse, ZodType_parse, EmailSchema, ZodEffects_refinement.
  destruct (well_typed input) eqn:Htyped.
  - rewrite (EmailObject_parse_well_typed input Htyped). cbv zeta.
    destruct (_ ++ _) as [|i rest].
    + destruct (has_content _); [discriminate|]. intros [= <-]. discriminate.
    + destruct (has_content _); intros [= <-]; [discriminate|].
      simpl. discriminate.
  - destruct (EmailObject_parse_ill_typed input Htyped) as [Hinvalid (i & Hin & _)].
    destruct (EmailObject_parse input) as [r found]. simpl in Hinvalid, Hin. subst r.
    intros [= <-]. intros ->. by apply elem_of_nil in Hin.
Qed.

Lemma rejection_names_an_issue_witness :
  [mkIssue too_small ["subject"] "Subject cannot be empty"] <> [].
Proof.
  apply (rejection_names_an_issue emptySubjectInput). reflexivity.
Defined.

(** X3: when the arguments are not an object, or a field has the wrong
    type or a required one is missing, the validator fails with an
    [invalid_type] issue and never with the content-presence issue: the
    refinement does not run on an aborted parse. *)
Theorem ill_typed_input_skips_the_content_rule (input : value) :
  well_typed input = false ->
  exists issues,
    EmailSchema_parse input = Err issues /\
    (exists i, i ∈ issues /\ code i = invalid_type) /\
    content_issue ∉ issues.
Proof.
  intros Htyped.
  unfold EmailSchema_parse, ZodType_parse, EmailSchema, ZodEffects_refinement.
  destruct (EmailObject_parse_ill_typed input Htyped) as [Hinvalid Hissue].
  pose proof (EmailObject_parse_codes input) as Hcodes.
  destruct (EmailObject_parse input) as [r issues]. simpl in Hinvalid, Hissue, Hcodes.
  subst r. exists issues. split; [reflexivity|]. split; [exact Hissue|].
  intros Hin. rewrite Forall_forall in Hcodes. by apply (Hcodes _ Hin).
Qed.

Lemma ill_typed_input_skips_the_content_rule_witness :
  exists issues,
    EmailSchema_parse missingRecipientInput = Err issues /\
    (exists i, i ∈ issues /\ code i = invalid_type) /\
    content_issue ∉ issues.
Proof.
  apply (ill_typed_input_skips_the_content_rule missingRecipientInput). reflexivity.
Defined.

(** ** One message per reported rule *)

Lemma reported_rules_unfold (input : value) :
  reported_rules input =
  (if reported input recipient_format then [recipient_format] else []) ++
  (if reported input subject_nonempty then [subject_nonempty] else []) ++
  (if reported input content_presence then [content_presence] else []).
Proof.
  unfold reported_rules, rules.
  destruct (reported input recipient_format) eqn:Hr,
    (reported input subject_nonempty) eqn:Hs,
    (reported input content_presence) eqn:Hc;
    rewrite ?filter_cons, ?filter_nil, ?Hr, ?Hs, ?Hc;
    repeat case_decide; (reflexivity || discriminate || congruence).
Qed.

Lemma to_issues (data : list (string * value)) :
  (ZodString_parse [check_email "Invalid recipient email address"] ["to"]
     (field "to" data)).2 =
  if violates (VObj data) recipient_format
  then [issue_for (VObj data) recipient_format] else [].
Proof.
  unfold violates, issue_for, type_issue, input_field.
  destruct (field "to" data) as [| | | |t| |]; try reflexivity.
  simpl. destruct (emailRegex_test t); reflexivity.
Qed.

Lemma subject_issues (data : list (string * value)) :
  (ZodString_parse [check_min 1 "Subject cannot be empty"] ["subject"]
     (field "subject" data)).2 =
  if violates (VObj data) subject_nonempty
  then [issue_for (VObj data) subject_nonempty] else [].
Proof.
  unfold violates, issue_for, type_issue, input_field.
  destruct (field "subject" data) as [| | | |s| |]; try reflexivity.
  cbn [ZodString_parse snd map concat run_check app nonempty_string is_string].
  rewrite too_short_is_empty. destruct (String.eqb s ""); reflexivity.
Qed.

Lemma optional_issues (k : string) (data : list (string * value)) :
  (ZodOptional_parse (ZodString_parse []) [k] (field k data)).2 =
  if optional_string (field k data) then []
  else [invalid_type_issue [k] t_string (field k data)].
Proof. destruct (field k data); reflexivity. Qed.

(** The issues of the object parse, on every object. *)
Lemma EmailObject_parse_issues (data : list (string * value)) :
  (EmailObject_parse (VObj data)).2 =
  (if violates (VObj data) recipient_format
   then [issue_for (VObj data) recipient_format] else []) ++
  (if violates (VObj data) subject_nonempty
   then [issue_for (VObj data) subject_nonempty] else []) ++
  stray_type_issues (VObj data).
Proof.
  rewrite EmailObject_parse_unfold. cbn [snd].
  rewrite to_issues, subject_issues, !optional_issues. reflexivity.
Qed.

(** C3, as amended: the validator's single failure carries one message
    per violated rule, ordered recipient format first, then subject
    non-emptiness, then the content-presence rule, on every input object,
    with this exception: when a field is missing or of the wrong type the
    parse aborts, the content-presence rule is not checked and has no
    message; a recipient or subject that is not a string then gets the
    type message in place of its own, and a text or html that is given
    but is not a string adds a type message after them.  An input that
    is not an object fails with the one message for the whole input.  The
    validator succeeds exactly when there is nothing to report. *)
Theorem validator_reports_the_violated_rules (input : value) :
  EmailSchema_parse input =
  match expected_issues input with
  | [] => Ok (request_of input)
  | issues => Err issues
  end.
Proof.
  destruct input as [| |b|n|s|elems|data]; try reflexivity.
  pose proof (EmailObject_parse_issues data) as Hissues.
  unfold expected_issues. rewrite reported_rules_unfold.
  unfold reported, parse_aborts.
  unfold EmailSchema_parse, ZodType_parse, EmailSchema, ZodEffects_refinement.
  destruct (well_typed (VObj data)) eqn:Htyped.
  - rewrite (EmailObject_parse_well_typed _ Htyped). cbv zeta.
    unfold stray_type_issues, violates, issue_for, request_of, has_content, input_field.
    unfold well_typed in Htyped.
    destruct (field "to" data) as [| | | |t| |]; try discriminate.
    destruct (field "subject" data) as [| | | |sj| |]; try discriminate.
    cbn [is_string as_string to subject text html nonempty_string].
    destruct (emailRegex_test t), (String.eqb sj "");
      destruct (field "text" data) as [| | | |x| |]; try discriminate;
      destruct (field "html" data) as [| | | |h| |]; try discriminate;
      cbn [as_optional present nonempty_string optional_string app text html];
      repeat match goal with |- context [String.eqb ?a ""] => destruct (String.eqb a "") end;
      reflexivity.
  - destruct (EmailObject_parse_ill_typed _ Htyped) as [Hinvalid (i & Hin & _)].
    destruct (EmailObject_parse (VObj data)) as [r issues].
    cbn [fst snd] in Hinvalid, Hin, Hissues. subst r.
    cbn [negb andb]. rewrite !andb_true_r, andb_false_r.
    assert (Hsame : map (issue_for (VObj data))
                      ((if violates (VObj data) recipient_format then [recipient_format] else []) ++
                       (if violates (VObj data) subject_nonempty then [subject_nonempty] else []) ++
                       []) ++ stray_type_issues (VObj data) = issues).
    { rewrite Hissues.
      destruct (violates (VObj data) recipient_format),
        (violates (VObj data) subject_nonempty); reflexivity. }
    rewrite Hsame. destruct issues; [by apply elem_of_nil in Hin|reflexivity].
Qed.

Lemma validator_reports_the_violated_rules_witness :
  EmailSchema_parse missingRecipientWithTextInput =
  Err [mkIssue invalid_type ["to"] "Required";
       mkIssue too_small ["subject"] "Subject cannot be empty"] /\
  EmailSchema_parse missingRecipientInput =
  Err [mkIssue invalid_type ["to"] "Required";
       mkIssue too_small ["subject"] "Subject cannot be empty"] /\
  EmailSchema_parse threeViolationsInput =
  Err [mkIssue invalid_string ["to"] "Invalid recipient email address";
       mkIssue too_small ["subject"] "Subject cannot be empty";
       mkIssue custom ["content"] "Either text or html content must be provided"].
Proof.
  split; [|split].
  - exact (validator_reports_the_violated_rules missingRecipientWithTextInput).
  - exact (validator_reports_the_violated_rules missingRecipientInput).
  - exact (validator_reports_the_violated_rules threeViolationsInput).
Defined.

(** ** The address pattern *)

Lemma cut_spec (sep : ascii) (l a b : list ascii) :
  cut sep l = (a, Some b) -> l = a ++ sep :: b /\ Forall (fun c => c <> sep) a.
Proof.
  revert a. induction l as [|c l IH]; intros a; simpl; [discriminate|].
  destruct (Ascii.eqb_spec c sep) as [->|Hne].
  - intros [= <- <-]. split; [reflexivity|constructor].
  - destruct (cut sep l) as [a' b'] eqn:Hcut. intros [= <- ->].
    destruct (IH a' eq_refl) as [-> Ha']. split; [reflexivity|].
    constructor; assumption.
Qed.

Lemma forallb_Forall_true {A : Type} (f : A -> bool) (l : list A) :
  forallb f l = true -> Forall (fun x => f x = true) l.
Proof.
  induction l as [|x l IH]; simpl; [constructor|].
  intros [Hx Hl]%andb_prop. constructor; auto.
Qed.

(** The pieces of [split_on] hold every character but the separators. *)
Lemma split_on_Forall (Q : ascii -> Prop) (sep : ascii) (l : list ascii) :
  Forall (Forall Q) (split_on sep l) -> Forall (fun c => Q c \/ c = sep) l.
Proof.
  induction l as [|c l IH]; simpl; [constructor|].
  destruct (Ascii.eqb_spec c sep) as [->|Hne].
  - intros [_ Hrest]%Forall_cons. constructor; [by right|auto].
  - destruct (split_on sep l) as [|p ps].
    + intros [[Hc _]%Forall_cons _]%Forall_cons. constructor; [by left|].
      apply IH. constructor.
    + intros [[Hc Hp]%Forall_cons Hps]%Forall_cons. constructor; [by left|].
      apply IH. constructor; assumption.
Qed.

Lemma local_ok_chars (l : list ascii) :
  local_ok l = true -> Forall (fun c => local_char c = true) l.
Proof.
  unfold local_ok. destruct (rev l) as [|c before] eqn:Hrev; [discriminate|].
  intros [Hlast Hbefore%forallb_Forall_true]%andb_prop.
  rewrite <- (rev_involutive l), Hrev. apply Forall_rev.
  constructor; [|exact Hbefore].
  revert Hlast. unfold local_last, local_char.
  destruct (is_alnum c), (is_char "_" c), (is_char "'" c), (is_char "+" c),
    (is_char "-" c); simpl; intros; (reflexivity || discriminate).
Qed.

Lemma label_ok_chars (l : list ascii) :
  label_ok l = true -> Forall (fun c => label_char c = true) l.
Proof.
  destruct l as [|c rest]; simpl; [constructor|].
  intros [Hc Hrest%forallb_Forall_true]%andb_prop.
  constructor; [|exact Hrest]. unfold label_char. by rewrite Hc.
Qed.

Lemma domain_ok_chars (l : list ascii) :
  domain_ok l = true -> Forall (fun c => local_char c = true) l.
Proof.
  unfold domain_ok. destruct (rev (split_on "." l)) as [|tld [|label labels]] eqn:Hrev;
    try discriminate.
  intros [[_ Htld%forallb_Forall_true]%andb_prop Hlabels%forallb_Forall_true]%andb_prop.
  assert (Hparts : Forall (Forall (fun c => label_char c = true)) (split_on "." l)).
  { rewrite <- (rev_involutive (split_on "." l)), Hrev. apply Forall_rev.
    constructor.
    - eapply Forall_impl; [exact Htld|]. intros c Hc. unfold label_char, is_alnum.
      by rewrite Hc.
    - eapply Forall_impl; [exact Hlabels|]. intros p. apply label_ok_chars. }
  eapply Forall_impl; [exact (split_on_Forall _ _ _ Hparts)|].
  intros c [Hc| ->]; [|reflexivity].
  revert Hc. unfold label_char, local_char.
  destruct (is_alnum c), (is_char "-" c); simpl; intros;
    rewrite ?orb_true_r; (reflexivity || discriminate).
Qed.

Lemma count_char_none (x : ascii) (l : list ascii) :
  Forall (fun c => c <> x) l -> count_char x l = 0.
Proof.
  unfold count_char. induction 1 as [|c l Hc _ IH]; [reflexivity|].
  rewrite filter_cons_False by exact Hc. exact IH.
Qed.

(** X4: an accepted recipient is made of letters, digits and the
    characters _ ' + - . @ only, with exactly one @: no blank, line break,
    comma, semicolon, quote or angle bracket gets through. *)
Theorem accepted_recipient_alphabet (input : value) (emailData : EmailRequest) :
  EmailSchema_parse input = Ok emailData ->
  Forall (fun c => address_char c = true) (String.list_ascii_of_string (to emailData)) /\
  count_char "@" (String.list_ascii_of_string (to emailData)) = 1.
Proof.
  intros (_ & _ & Haddress & _)%EmailSchema_parse_Ok_inv.
  unfold emailRegex_test in Haddress.
  destruct (cut "@" (String.list_ascii_of_string (to emailData))) as [loc [dom|]] eqn:Hcut;
    [|by rewrite andb_false_r in Haddress].
  apply andb_prop in Haddress as [_ [Hloc%local_ok_chars Hdom%domain_ok_chars]%andb_prop].
  destruct (cut_spec _ _ _ _ Hcut) as [-> _].
  assert (Hno : forall l, Forall (fun c => local_char c = true) l ->
                          Forall (fun c : ascii => c <> "@"%char) l).
  { intros l Hl. eapply Forall_impl; [exact Hl|]. intros c Hc ->. discriminate. }
  assert (Hin : forall l, Forall (fun c => local_char c = true) l ->
                          Forall (fun c => address_char c = true) l).
  { intros l Hl. eapply Forall_impl; [exact Hl|].
    intros c Hc. unfold address_char. by rewrite Hc. }
  split.
  - apply Forall_app. split; [auto|]. constructor; [reflexivity|auto].
  - pose proof (count_char_none "@" loc (Hno _ Hloc)) as Hcl.
    pose proof (count_char_none "@" dom (Hno _ Hdom)) as Hcd.
    unfold count_char in *.
    rewrite filter_app, length_app, filter_cons_True by reflexivity.
    cbn [length]. rewrite Hcl, Hcd. reflexivity.
Qed.

Lemma accepted_recipient_alphabet_witness :
  Forall (fun c => address_char c = true)
    (String.list_ascii_of_string (to (request_of htmlInput))) /\
  count_char "@" (String.list_ascii_of_string (to (request_of htmlInput))) = 1.
Proof.
  apply (accepted_recipient_alphabet htmlInput (request_of htmlInput)). reflexivity.
Defined.

(** ** The dispatcher, path by path *)

Lemma sanitized_app (t t' : list event) : sanitized (t ++ t') = sanitized t ++ sanitized t'.
Proof.
  induction t as [|ev t IH]; [reflexivity|].
  destruct ev; simpl; rewrite IH; reflexivity.
Qed.


Lemma append_first_message_throws (errorMessage : string) (errorBody : value) :
  errors_start_with_null errorBody =
  match append_first_message errorMessage errorBody with Ok _ => false | Err _ => true end.
Proof.
  unfold append_first_message, has_first_message, errors_start_with_null.
  destruct errorBody as [| |b|n|s|elems|body]; try reflexivity.
  - destruct b; reflexivity.
  - simpl. destruct (n =? 0)%Z; reflexivity.
  - simpl. destruct (String.eqb s ""); reflexivity.
  - simpl. unfold has_field, field.
    destruct (lookup_field "errors" body) as [errors|]; [|reflexivity].
    destruct errors as [| |b|n|s|[|first rest]|fs]; try reflexivity.
    destruct first as [| |b|n|s|elems|first]; try reflexivity.
    simpl. unfold has_field, field.
    destruct (lookup_field "message" first); reflexivity.
Qed.

Section Dispatcher.

Variable lib : Libraries.

(** The [catch] block on a caught object with a [response], in full. *)
Lemma on_error_sendgrid (error : thrown) (response : value) :
  error_response error = Some response ->
  on_error error =
  (Ok (Response.failure (sendgrid_error_text response)),
   ConsoleError "TOOL_CALL_ERROR:" ::
   (if errors_start_with_null (response_body response)
    then [ConsoleError "Error parsing SendGrid error response:"] else [])).
Proof.
  intros Herr.
  assert (Hnz : forall errors, error <> ZodError errors)
    by (intros errors ->; discriminate).
  assert (Hmsg : sendgrid_error_message error =
    (Ok (sendgrid_error_text response),
     if errors_start_with_null (response_body response)
     then [ConsoleError "Error parsing SendGrid error response:"] else [])).
  { unfold sendgrid_error_message.
    rewrite (error_response_get _ _ Herr), bind_lift_Ok.
    rewrite (get_opt_input_field "status"), bind_lift_Ok by discriminate.
    rewrite (get_opt_input_field "body"), bind_lift_Ok by discriminate.
    fold (response_status response). fold (response_body response).
    unfold try_catch, lift, bind, emit, ret, sendgrid_error_text. cbv zeta.
    match goal with |- context [append_first_message ?m ?b] =>
      pose proof (append_first_message_spec m b) as Hspec;
      rewrite (append_first_message_throws m b);
      destruct (append_first_message m b) as [s|e]
    end.
    - rewrite <- Hspec. reflexivity.
    - rewrite Hspec. reflexivity. }
  unfold on_error. rewrite is_sendgrid_spec, Herr, Hmsg, bind_lift_Ok, bind_emit.
  destruct error; [by destruct (Hnz errors)| |];
    unfold bind, ret; simpl; rewrite ?app_nil_r; reflexivity.
Qed.

(** Every run of the [catch] block: an error response, one or two log
    lines, nothing else. *)
Lemma on_error_trace (error : thrown) :
  exists msg labels,
    on_error error =
      (Ok (Response.failure msg), map ConsoleError ("TOOL_CALL_ERROR:" :: labels)) /\
    length labels <= 1.
Proof.
  destruct (error_response error) as [response|] eqn:Herr.
  - rewrite (on_error_sendgrid error response Herr).
    destruct (errors_start_with_null _);
      [exists (sendgrid_error_text response), ["Error parsing SendGrid error response:"]
      |exists (sendgrid_error_text response), []]; split; (reflexivity || simpl; lia).
  - destruct error as [errors|message own|v].
    + rewrite on_error_zod. eexists _, []. split; [reflexivity|simpl; lia].
    + rewrite on_error_other by (done || intros ? [=]).
      eexists _, []. split; [reflexivity|simpl; lia].
    + rewrite on_error_other by (done || intros ? [=]).
      eexists _, []. split; [reflexivity|simpl; lia].
Qed.

Lemma sanitize_request_unfold (d : EmailRequest) :
  sanitize_request lib d =
  match html d with
  | Some h =>
      if present (Some h) then
        (match DOMPurify_sanitize lib h with
         | Ok c => Ok (mkEmailRequest (to d) (subject d) (text d) (Some c))
         | Err e => Err e
         end, [Sanitize h])
      else (Ok (mkEmailRequest (to d) (subject d) (text d) None), [])
  | None => (Ok (mkEmailRequest (to d) (subject d) (text d) None), [])
  end.
Proof.
  unfold sanitize_request, sanitizeHtml, bind, emit, lift, ret.
  destruct (html d) as [h|]; [|reflexivity].
  destruct (present (Some h)); [|reflexivity].
  destruct (DOMPurify_sanitize lib h); reflexivity.
Qed.

(** What the sanitizing step returns, and what it did to get there. *)
Lemma sanitize_request_Ok (d sd : EmailRequest) (pre : list event) :
  sanitize_request lib d = (Ok sd, pre) ->
  to sd = to d /\ subject sd = subject d /\ text sd = text d /\
  ((pre = [] /\ html sd = None /\ present (html d) = false) \/
   (exists h c, html d = Some h /\ present (Some h) = true /\
                DOMPurify_sanitize lib h = Ok c /\
                pre = [Sanitize h] /\ html sd = Some c)).
Proof.
  rewrite sanitize_request_unfold.
  destruct (html d) as [h|] eqn:Hhtml.
  - destruct (present (Some h)) eqn:Hpresent.
    + destruct (DOMPurify_sanitize lib h) as [c|e] eqn:Hclean; [|discriminate].
      intros [= <- <-]. repeat split. right. exists h, c. auto.
    + intros [= <- <-]. repeat split. left. auto.
  - intros [= <- <-]. repeat split. left. auto.
Qed.

(** The four ways a call can go: rejected by the validator; stopped by a
    throw of the sanitizer; stopped by a throw on the way through
    [sendEmail]; or sent. *)
Lemma handleSendEmail_paths (this : SendGridMCPServer) (request : CallToolRequest) :
  (exists issues,
     EmailSchema_parse (arguments request) = Err issues /\
     handleSendEmail lib this request =
       (Ok (Response.failure ("Validation error: " +:+ join ", " (map issue_line issues))),
        [ConsoleError "TOOL_CALL_ERROR:"])) \/
  (EmailSchema_parse (arguments request) = Ok (request_of (arguments request)) /\
   ((exists h e msg labels,
       html (request_of (arguments request)) = Some h /\
       present (Some h) = true /\
       DOMPurify_sanitize lib h = Err e /\
       on_error e =
         (Ok (Response.failure msg), map ConsoleError ("TOOL_CALL_ERROR:" :: labels)) /\
       length labels <= 1 /\
       handleSendEmail lib this request =
         (Ok (Response.failure msg),
          Sanitize h :: map ConsoleError ("TOOL_CALL_ERROR:" :: labels))) \/
    (exists sd pre,
       sanitize_request lib (request_of (arguments request)) = (Ok sd, pre) /\
       ((exists e msg labels,
           (sendEmail lib this sd).1 = Err e /\
           on_error e =
             (Ok (Response.failure msg), map ConsoleError ("TOOL_CALL_ERROR:" :: labels)) /\
           length labels <= 1 /\
           handleSendEmail lib this request =
             (Ok (Response.failure msg),
              pre ++ Send (make_msg this sd) ::
              map ConsoleError ("TOOL_CALL_ERROR:" :: labels))) \/
        (exists receipt,
           (sendEmail lib this sd).1 = Ok receipt /\
           handleSendEmail lib this request =
             (Ok (Response.success
                    ("Email sent successfully! Status: " +:+
                     pretty (receipt_statusCode receipt) +:+
                     ", Message ID: " +:+ ToString (messageId receipt))),
              pre ++ [Send (make_msg this sd)])))))).
Proof.
  unfold handleSendEmail. rewrite attempt_unfold. unfold parse_arguments.
  destruct (EmailSchema_parse (arguments request)) as [d|issues] eqn:Hparse.
  2:{ left. exists issues. split; [reflexivity|]. unfold try_catch.
      rewrite on_error_zod. reflexivity. }
  right. destruct (EmailSchema_parse_Ok_inv _ _ Hparse) as (_ & -> & _).
  split; [reflexivity|].
  destruct (sanitize_request lib (request_of (arguments request))) as [[sd|e] pre] eqn:Hclean.
  - right. exists sd, pre. split; [reflexivity|].
    pose proof (sendEmail_unfold lib this sd) as Hsend.
    destruct (sendEmail lib this sd) as [[receipt|e] t']; injection Hsend as Hr ->.
    + right. exists receipt. split; reflexivity.
    + left. destruct (on_error_trace e) as (msg & labels & Herr & Hlen).
      exists e, msg, labels. split; [reflexivity|]. split; [exact Herr|]. split; [exact Hlen|].
      unfold try_catch. rewrite Herr. rewrite <- app_assoc. reflexivity.
  - left. rewrite sanitize_request_unfold in Hclean.
    destruct (html (request_of (arguments request))) as [h|]; [|discriminate].
    destruct (present (Some h)) eqn:Hpresent; [|discriminate].
    destruct (DOMPurify_sanitize lib h) as [c|e'] eqn:Hthrow; [discriminate|].
    injection Hclean as <- <-.
    destruct (on_error_trace e') as (msg & labels & Herr & Hlen).
    exists h, e', msg, labels. repeat (split; [done|]).
    unfold try_catch. rewrite Herr. reflexivity.
Qed.

End Dispatcher.

(** ** What a call sends *)

Lemma sent_logs (labels : list string) : sent (map ConsoleError labels) = [].
Proof. induction labels; [reflexivity|exact IHlabels]. Qed.

Lemma sanitized_logs (labels : list string) : sanitized (map ConsoleError labels) = [].
Proof. induction labels; [reflexivity|exact IHlabels]. Qed.

Lemma logged_logs (labels : list string) : logged (map ConsoleError labels) = labels.
Proof. induction labels as [|l labels IH]; [reflexivity|]. simpl. by rewrite IH. Qed.

(** A call sends nothing, or the one message built from the validated
    and sanitized request. *)
Lemma handleSendEmail_sends (lib : Libraries) (this : SendGridMCPServer)
    (request : CallToolRequest) :
  sent (handleSendEmail lib this request).2 = [] \/
  exists sd pre,
    EmailSchema_parse (arguments request) = Ok (request_of (arguments request)) /\
    sanitize_request lib (request_of (arguments request)) = (Ok sd, pre) /\
    sanitized (handleSendEmail lib this request).2 = sanitized pre /\
    sent (handleSendEmail lib this request).2 = [make_msg this sd].
Proof.
  destruct (handleSendEmail_paths lib this request)
    as [(issues & _ & ->)|[Hparse [(h & e & msg & labels & _ & _ & _ & _ & _ & ->)
       |(sd & pre & Hclean & Hsend)]]].
  - left. reflexivity.
  - left. simpl. apply sent_logs.
  - right. exists sd, pre. split; [exact Hparse|]. split; [exact Hclean|].
    assert (Hpre : sent pre = []).
    { destruct (sanitize_request_Ok lib _ _ _ Hclean)
        as (_ & _ & _ & [(-> & _)|(h & c & _ & _ & _ & -> & _)]); reflexivity. }
    destruct Hsend as [(e & msg & labels & _ & _ & _ & ->)|(receipt & _ & ->)]; cbn [snd].
    + rewrite sent_app, sanitized_app, Hpre. simpl.
      rewrite sent_logs, sanitized_logs, app_nil_r. auto.
    + rewrite sent_app, sanitized_app, Hpre. simpl. rewrite app_nil_r. auto.
Qed.

(** X5: whatever a call hands to the delivery client goes to the
    recipient the caller named, which matches the address pattern, under
    the caller's subject, which is not empty, and with the caller's text
    untouched (left out when empty): the sanitizer has no say in any of
    the three. *)
Theorem sent_message_is_the_validated_request (lib : Libraries) (this : SendGridMCPServer)
    (request : CallToolRequest) (m : MailData) :
  m ∈ sent (handleSendEmail lib this request).2 ->
  msg_to m = as_string (input_field "to" (arguments request)) /\
  msg_subject m = as_string (input_field "subject" (arguments request)) /\
  msg_text m = only_if_present (as_optional (input_field "text" (arguments request))) /\
  emailRegex_test (msg_to m) = true /\
  msg_subject m <> "".
Proof.
  destruct (handleSendEmail_sends lib this request)
    as [->|(sd & pre & Hparse & Hclean & _ & ->)]; [by intros ?%elem_of_nil|].
  intros ->%list_elem_of_singleton.
  destruct (sanitize_request_Ok lib _ _ _ Hclean) as (Hto & Hsubject & Htext & _).
  destruct (EmailSchema_parse_Ok_inv _ _ Hparse) as (_ & _ & Haddress & Hfull & _).
  unfold make_msg. cbn [msg_to msg_subject msg_text]. rewrite Hto, Hsubject, Htext.
  auto.
Qed.

Lemma sent_message_is_the_validated_request_witness :
  msg_to (make_msg testServer (request_of htmlInput)) = "test@example.com" /\
  msg_subject (make_msg testServer (request_of htmlInput)) = "Test Email" /\
  msg_text (make_msg testServer (request_of htmlInput)) = Some "This is a test email" /\
  emailRegex_test (msg_to (make_msg testServer (request_of htmlInput))) = true /\
  msg_subject (make_msg testServer (request_of htmlInput)) <> "".
Proof.
  apply (sent_message_is_the_validated_request testLibraries testServer
           (request_with htmlInput)).
  vm_compute. constructor.
Defined.

(** X6: markup reaches the delivery client only through the sanitizer:
    the html of a sent message is not empty and is what DOMPurify
    returned for the caller's html, in the one call made to it. *)
Theorem sent_html_is_sanitized (lib : Libraries) (this : SendGridMCPServer)
    (request : CallToolRequest) (m : MailData) (clean : string) :
  m ∈ sent (handleSendEmail lib this request).2 ->
  msg_html m = Some clean ->
  clean <> "" /\
  exists dirty,
    input_field "html" (arguments request) = VStr dirty /\
    DOMPurify_sanitize lib dirty = Ok clean /\
    sanitized (handleSendEmail lib this request).2 = [dirty].
Proof.
  destruct (handleSendEmail_sends lib this request)
    as [->|(sd & pre & Hparse & Hclean & -> & ->)]; [by intros ?%elem_of_nil|].
  intros ->%list_elem_of_singleton. unfold make_msg, only_if_present. cbn [msg_html].
  destruct (present (html sd)) eqn:Hpresent; [|discriminate].
  intros Hhtml. rewrite Hhtml in Hpresent. split.
  { simpl in Hpresent. apply String.eqb_neq. by destruct (String.eqb clean ""). }
  destruct (sanitize_request_Ok lib _ _ _ Hclean)
    as (_ & _ & _ & [(_ & Hnone & _)|(h & c & Hgiven & _ & Hrun & -> & Hsd)]);
    [congruence|].
  assert (c = clean) as -> by congruence.
  exists h. split; [|split; [exact Hrun|reflexivity]].
  unfold request_of in Hgiven. cbn [html] in Hgiven.
  destruct (input_field "html" (arguments request)); try discriminate.
  by injection Hgiven as ->.
Qed.

Lemma sent_html_is_sanitized_witness :
  safeHtml <> "" /\
  exists dirty,
    input_field "html" htmlInput = VStr dirty /\
    testSanitizeHtml dirty = Ok safeHtml /\
    sanitized (handleSendEmail testLibraries testServer (request_with htmlInput)).2 = [dirty].
Proof.
  apply (sent_html_is_sanitized testLibraries testServer (request_with htmlInput)
           (make_msg testServer (request_of htmlInput)) safeHtml).
  - vm_compute. constructor.
  - reflexivity.
Defined.

(** ** The order of events *)

(** X7: in every call the sanitizer runs at most once, the delivery
    client is called at most once and only after the sanitizer, and the
    log lines (at most two) come last. *)
Theorem events_come_in_order (lib : Libraries) (this : SendGridMCPServer)
    (request : CallToolRequest) :
  let t := (handleSendEmail lib this request).2 in
  t = map Sanitize (sanitized t) ++ map Send (sent t) ++ map ConsoleError (logged t) /\
  length (sanitized t) <= 1 /\ length (sent t) <= 1 /\ length (logged t) <= 2.
Proof.
  cbv zeta.
  assert (Hpre : forall d sd pre, sanitize_request lib d = (Ok sd, pre) ->
                   pre = [] \/ exists h, pre = [Sanitize h]).
  { intros d sd pre H.
    destruct (sanitize_request_Ok lib _ _ _ H)
      as (_ & _ & _ & [(-> & _)|(h & c & _ & _ & _ & -> & _)]); eauto. }
  destruct (handleSendEmail_paths lib this request)
    as [(issues & _ & ->)|[_ [(h & e & msg & labels & _ & _ & _ & _ & Hlen & ->)
       |(sd & pre & Hclean & Hsend)]]].
  - simpl. repeat split; lia.
  - simpl. rewrite sanitized_logs, sent_logs, logged_logs. simpl.
    repeat split; lia.
  - destruct Hsend as [(e & msg & labels & _ & _ & Hlen & ->)|(receipt & _ & ->)];
      destruct (Hpre _ _ _ Hclean) as [->|[h ->]]; simpl;
      rewrite ?sanitized_logs, ?sent_logs, ?logged_logs; simpl;
      repeat split; lia.
Qed.


(** ** When a step throws *)




(** X10: a throw that is neither a validation error nor an object with
    a [response] is answered "Failed to send email: <message>" when it is
    an [Error], and "Failed to send email: Unknown error" when it is
    anything else (a string, a number, [null], an array, a plain object). *)
Theorem other_failures_are_reported_by_message (lib : Libraries) (this : SendGridMCPServer)
    (request : CallToolRequest) (error : thrown) :
  (attempt lib this request).1 = Err error ->
  is_zod_error error = false ->
  error_response error = None ->
  (handleSendEmail lib this request).1 =
  Ok (Response.failure ("Failed to send email: " +:+ error_message error)).
Proof.
  intros Hthrown Hzod Hplain. unfold handleSendEmail, try_catch.
  destruct (attempt lib this request) as [r t]. simpl in Hthrown. subst r.
  rewrite on_error_other; [reflexivity|exact Hplain|].
  intros errors ->. discriminate.
Qed.

Lemma other_failures_are_reported_by_message_witness :
  (handleSendEmail testLibraries testServer (request_with timeoutInput)).1 =
  Ok (Response.failure "Failed to send email: Network timeout").
Proof.
  apply (other_failures_are_reported_by_message testLibraries testServer
           (request_with timeoutInput) (ErrorObject "Network timeout" [])).
  - reflexivity.
  - reflexivity.
  - reflexivity.
Defined.

(** X11: the content rule is checked before sanitizing only.  When the
    request has no text and the sanitizer leaves nothing of its html, the
    message still goes out, with neither a text nor an html body. *)
Theorem emptied_html_is_sent_without_body (lib : Libraries) (this : SendGridMCPServer)
    (request : CallToolRequest) (emailData : EmailRequest) (dirty : string) :
  EmailSchema_parse (arguments request) = Ok emailData ->
  present (text emailData) = false ->
  html emailData = Some dirty ->
  DOMPurify_sanitize lib dirty = Ok "" ->
  sent (handleSendEmail lib this request).2 =
  [ {| msg_to := to emailData; msg_from := fromEmail this;
       msg_subject := subject emailData; msg_text := None; msg_html := None |} ].
Proof.
  intros Hparse Htext Hhtml Hclean.
  assert (Hfull : present (Some dirty) = true).
  { destruct (EmailSchema_parse_Ok_inv _ _ Hparse) as (_ & _ & _ & _ & Hcontent).
    unfold has_content in Hcontent. by rewrite Htext, Hhtml in Hcontent. }
  rewrite handleSendEmail_sent.
  rewrite (validated_request_is_sent lib this request emailData
             (mkEmailRequest (to emailData) (subject emailData) (text emailData) (Some ""))).
  - unfold make_msg, only_if_present. cbn [to subject text html]. rewrite Htext. reflexivity.
  - unfold parse_arguments. by rewrite Hparse.
  - rewrite sanitize_request_unfold, Hhtml, Hfull, Hclean. reflexivity.
Qed.

Lemma emptied_html_is_sent_without_body_witness :
  sent (handleSendEmail strippingLibraries testServer (request_with scriptOnlyInput)).2 =
  [ {| msg_to := "test@example.com"; msg_from := "sender@example.com";
       msg_subject := "Hi"; msg_text := None; msg_html := None |} ].
Proof.
  apply (emptied_html_is_sent_without_body strippingLibraries testServer
           (request_with scriptOnlyInput) (request_of scriptOnlyInput)
           "<script>alert(1)</script>").
  - reflexivity.
  - reflexivity.
  - reflexivity.
  - reflexivity.
Defined.

(** X12: when the delivery client returns an answer without headers,
    reading the message id throws inside the [try]: the message has been
    handed over, yet the caller is told of an error. *)
Theorem answer_without_headers_is_an_error (lib : Libraries) (this : SendGridMCPServer)
    (request : CallToolRequest) (emailData sanitizedData : EmailRequest)
    (response : ClientResponse) :
  EmailSchema_parse (arguments request) = Ok emailData ->
  (sanitize_request lib emailData).1 = Ok sanitizedData ->
  sgMail_send lib (make_msg this sanitizedData) = Ok response ->
  nullish (headers response) = true ->
  exists resp t,
    handleSendEmail lib this request = (Ok resp, t) /\
    Response.isError resp = Some true /\
    sent t = [make_msg this sanitizedData].
Proof.
  intros Hparse Hclean Hsend Hnull.
  assert (Hargs : parse_arguments request = Ok emailData)
    by (unfold parse_arguments; by rewrite Hparse).
  pose proof (validated_request_is_sent lib this request _ _ Hargs Hclean) as Hsent.
  rewrite <- handleSendEmail_sent in Hsent.
  unfold handleSendEmail in *. rewrite attempt_unfold, Hargs in *.
  destruct (sanitize_request lib emailData) as [r pre]. simpl in Hclean. subst r.
  rewrite sendEmail_unfold, Hsend in *.
  destruct (headers response); try discriminate; cbn [get] in *;
    unfold try_catch in *;
    match goal with |- context [on_error ?e] =>
      destruct (on_error_trace e) as (msg & labels & Herr & _); rewrite Herr in *
    end; eexists _, _; (split; [reflexivity|split; [reflexivity|exact Hsent]]).
Qed.

Lemma answer_without_headers_is_an_error_witness :
  exists resp t,
    handleSendEmail headlessLibraries testServer (request_with htmlInput) = (Ok resp, t) /\
    Response.isError resp = Some true /\
    sent t = [make_msg testServer (request_of htmlInput)].
Proof.
  apply (answer_without_headers_is_an_error headlessLibraries testServer
           (request_with htmlInput) (request_of htmlInput) (request_of htmlInput)
           {| statusCode := 202; headers := VUndefined |}).
  - reflexivity.
  - reflexivity.
  - reflexivity.
  - reflexivity.
Defined.

(** ** Provider errors, at the edges *)






(** ** Missing arguments *)

(** X15: when the arguments are not an object (left out, [null], an
    array, a string ...) the answer is a validation error whose one
    entry has an empty path: "Validation error: : Required" when they are
    left out, "Validation error: : Expected object, received <type>"
    otherwise; nothing is sanitized or sent. *)
Theorem arguments_must_be_an_object (lib : Libraries) (this : SendGridMCPServer)
    (request : CallToolRequest) :
  (forall data, arguments request <> VObj data) ->
  handleSendEmail lib this request =
  (Ok (Response.failure
         ("Validation error: : " +:+
          match arguments request with
          | VUndefined => "Required"
          | v => "Expected object, received " +:+ type_name (getParsedType v)
          end)),
   [ConsoleError "TOOL_CALL_ERROR:"]).
Proof.
  intros Hnot. unfold handleSendEmail.
  rewrite (attempt_invalid lib this request
             [invalid_type_issue [] t_object (arguments request)]).
  - unfold try_catch. rewrite on_error_zod.
    destruct (arguments request); reflexivity.
  - destruct (arguments request); try reflexivity. by destruct (Hnot fields).
Qed.

Lemma arguments_must_be_an_object_witness :
  handleSendEmail testLibraries testServer (request_with VUndefined) =
  (Ok (Response.failure "Validation error: : Required"),
   [ConsoleError "TOOL_CALL_ERROR:"]).
Proof.
  apply (arguments_must_be_an_object testLibraries testServer (request_with VUndefined)).
  discriminate.
Defined.

(** ** The tool list and the handlers *)


(** X17: every field a listed tool declares as required is required by
    the validator: arguments that lack it are rejected with the issue
    "Required" at that field. *)
Theorem required_fields_are_enforced (tool : Tool) (f : string)
    (data : list (string * value)) :
  tool ∈ listTools ->
  f ∈ required (inputSchema tool) ->
  field f data = VUndefined ->
  exists issues,
    EmailSchema_parse (VObj data) = Err issues /\
    mkIssue invalid_type [f] "Required" ∈ issues.
Proof.
  intros ->%list_elem_of_singleton Hf Hmissing. simpl in Hf.
  assert (Htyped : well_typed (VObj data) = false).
  { unfold well_typed. apply elem_of_cons in Hf as [->|Hf]; [by rewrite Hmissing|].
    apply list_elem_of_singleton in Hf as ->. rewrite Hmissing.
    by rewrite andb_false_r. }
  destruct (EmailObject_parse_ill_typed _ Htyped) as [Hinvalid _].
  unfold EmailSchema_parse, ZodType_parse, EmailSchema, ZodEffects_refinement.
  rewrite EmailObject_parse_unfold in *. cbn [fst] in Hinvalid. rewrite Hinvalid.
  eexists. split; [reflexivity|].
  apply elem_of_cons in Hf as [->|Hf].
  - rewrite Hmissing. apply elem_of_app. left. by left.
  - apply list_elem_of_singleton in Hf as ->. rewrite Hmissing.
    apply elem_of_app. right. apply elem_of_app. left. by left.
Qed.

Lemma required_fields_are_enforced_witness :
  exists issues,
    EmailSchema_parse missingRecipientInput = Err issues /\
    mkIssue invalid_type ["to"] "Required" ∈ issues.
Proof.
  apply (required_fields_are_enforced
           (mkTool "send_email" "Send an email using SendGrid API"
              (mkInputSchema "object"
                 [ ("to", mkProperty "string" (Some "email") "Recipient email address");
                   ("subject", mkProperty "string" None "Email subject line");
                   ("text", mkProperty "string" None
                      "Plain text email content (optional if html is provided)");
                   ("html", mkProperty "string" None
                      "HTML email content (optional if text is provided)") ]
                 ["to"; "subject"] false))
           "to" [("subject", VStr "")]).
  - by left.
  - by left.
  - reflexivity.
Defined.

(** X18: the validator reads the properties a listed tool declares and
    no other: two argument objects that agree on the declared properties
    are accepted or rejected alike, with the same result. *)
Theorem declared_properties_decide (tool : Tool) (data data' : list (string * value)) :
  tool ∈ listTools ->
  (forall k, k ∈ (properties (inputSchema tool)).*1 -> field k data = field k data') ->
  EmailSchema_parse (VObj data) = EmailSchema_parse (VObj data').
Proof.
  intros ->%list_elem_of_singleton Hsame.
  apply EmailSchema_reads_its_shape_only. exact Hsame.
Qed.

Lemma declared_properties_decide_witness :
  EmailSchema_parse spoofedInput =
  EmailSchema_parse
    (VObj [("to", VStr "test@example.com"); ("subject", VStr "Hi"); ("text", VStr "hello")]).
Proof.
  apply (declared_properties_decide
           (mkTool "send_email" "Send an email using SendGrid API"
              (mkInputSchema "object"
                 [ ("to", mkProperty "string" (Some "email") "Recipient email address");
                   ("subject", mkProperty "string" None "Email subject line");
                   ("text", mkProperty "string" None
                      "Plain text email content (optional if html is provided)");
                   ("html", mkProperty "string" None
                      "HTML email content (optional if text is provided)") ]
                 ["to"; "subject"] false))).
  - by left.
  - intros k Hk. simpl in Hk.
    repeat (apply elem_of_cons in Hk as [->|Hk]; [reflexivity|]).
    by apply elem_of_nil in Hk.
Defined.

(** ** Start-up *)

(** X19: outside test mode the server comes up only with both settings:
    it exits with status 1 exactly when [SENDGRID_API_KEY] or
    [SENDGRID_FROM_EMAIL] is unset or empty, naming the key first when
    both are missing.  In test mode it always comes up.  Once up, it
    holds the two settings as read, and has configured the SendGrid
    client with the key exactly when there is one. *)
Theorem startup_needs_both_settings (env : gmap string string) (testMode : bool) :
  match constructor env testMode with
  | Exited status logged =>
      status = 1%Z /\ testMode = false /\
      (if String.eqb (env_get env "SENDGRID_API_KEY") ""
       then logged = "ERROR: SENDGRID_API_KEY environment variable is required"
       else env_get env "SENDGRID_FROM_EMAIL" = "" /\
            logged = "ERROR: SENDGRID_FROM_EMAIL environment variable is required")
  | Running this setApiKey =>
      new_SendGridMCPServer env testMode = Some this /\
      apiKey this = env_get env "SENDGRID_API_KEY" /\
      fromEmail this = env_get env "SENDGRID_FROM_EMAIL" /\
      (testMode = false -> apiKey this <> "" /\ fromEmail this <> "") /\
      setApiKey = (if String.eqb (apiKey this) "" then None else Some (apiKey this))
  end.
Proof.
  unfold constructor, new_SendGridMCPServer.
  destruct (String.eqb (env_get env "SENDGRID_API_KEY") "") eqn:Hkey;
    destruct (String.eqb (env_get env "SENDGRID_FROM_EMAIL") "") eqn:Hfrom;
    destruct testMode; cbn [andb negb apiKey fromEmail];
    rewrite ?Hkey; repeat split; try done;
    try (by apply String.eqb_eq); try (by apply String.eqb_neq).
Qed.
